(** * Ludwig configuration validation and hyperopt scheduler schemas

    A shallow embedding of
      - ludwig/config_validation/validation.py
      - ludwig/schema/hyperopt/scheduler.py
      - ludwig/schema/hyperopt/search_algorithm.py
    together with the properties of the configuration-validation
    specification that concern them. *)

From Stdlib Require Import String Ascii List ZArith QArith Bool Lia.
Import ListNotations.
Set Warnings "-register-all".
Local Open Scope string_scope.
Local Open Scope list_scope.

(** ** Python values

    Configuration instances and JSON schemas are nested Python values.
    A [dict] keeps its insertion order, so it is an association list whose
    lookup returns the first binding of a key.  Floats are the decimal
    literals of the sources and of configurations, kept as rationals; the
    only operations performed on them are order comparisons. *)

Inductive value : Type :=
| VNone
| VBool (b : bool)
| VInt (z : Z)
| VFloat (q : Q)
| VStr (s : string)
| VList (items : list value)
| VTuple (items : list value)
| VDict (items : list (string * value)).

Definition isinstance_dict (v : value) : bool :=
  match v with VDict _ => true | _ => false end.

Definition isinstance_list (v : value) : bool :=
  match v with VList _ => true | _ => false end.

Definition isinstance_tuple (v : value) : bool :=
  match v with VTuple _ => true | _ => false end.

Definition is_none (v : value) : bool :=
  match v with VNone => true | _ => false end.

(** [hash(v)] succeeds: lists and dicts are unhashable, a tuple is hashable
    when its items are. *)
Fixpoint hashable (v : value) : bool :=
  match v with
  | VList _ | VDict _ => false
  | VTuple items => forallb hashable items
  | _ => true
  end.

Module PyDict.

Section Assoc.
Context {A : Type}.

(** [d.get(k)] / [k in d] / [d[k]] *)
Fixpoint lookup (k : string) (d : list (string * A)) : option A :=
  match d with
  | [] => None
  | (k', v) :: rest => if String.eqb k k' then Some v else lookup k rest
  end.

Definition contains (k : string) (d : list (string * A)) : bool :=
  match lookup k d with Some _ => true | None => false end.

(** [d[k] = v]: overwrites in place, otherwise appends. *)
Fixpoint set (k : string) (v : A) (d : list (string * A)) : list (string * A) :=
  match d with
  | [] => [(k, v)]
  | (k', v') :: rest =>
      if String.eqb k k' then (k, v) :: rest else (k', v') :: set k v rest
  end.

Definition keys (d : list (string * A)) : list string := map fst d.

End Assoc.

End PyDict.

(** ** Exceptions

    The kinds of the error taxonomy.  [ValidationError] is the class the
    three modules import (marshmallow's and jsonschema's) and the only one
    their [raise] statements name; [TypeError] and [LookupError] are the
    built-in ones ([KeyError] and [IndexError] are [LookupError]s);
    [ConfigError] is a kind of the taxonomy that no statement of the
    sources raises; [OtherError] names any other built-in exception. *)

Inductive exn_kind : Type :=
| LookupError
| ConfigError
| TypeError
| ValidationError
| OtherError (name : string).

(** A message is the f-string that builds it: literal text and the
    interpolated objects. *)
Inductive frag : Type :=
| Lit (s : string)
| Repr (v : value)
| ReprCls (name : string)
| ReprExn (k : exn_kind) (msg : list frag).

Record exn : Type := mkExn { exn_kind_of : exn_kind; exn_msg : list frag }.

Inductive result (A : Type) : Type :=
| Ok (a : A)
| Raise (e : exn).
Arguments Ok {A} a.
Arguments Raise {A} e.

Definition bind {A B} (r : result A) (k : A -> result B) : result B :=
  match r with
  | Ok a => k a
  | Raise e => Raise e
  end.

Notation "x <- r ;; k" := (bind r (fun x => k))
  (at level 61, r at next level, right associativity).

Definition raise {A} (k : exn_kind) (msg : list frag) : result A :=
  Raise (mkExn k msg).

Definition raises {A} (r : result A) (k : exn_kind) : Prop :=
  exists msg, r = Raise (mkExn k msg).

Definition succeeds {A} (r : result A) : Prop :=
  exists a, r = Ok a.

(** [str.lower()], on ASCII letters. *)
Definition lower_ascii (c : ascii) : ascii :=
  let n := nat_of_ascii c in
  if andb (Nat.leb 65 n) (Nat.leb n 90) then ascii_of_nat (n + 32) else c.

Fixpoint lower (s : string) : string :=
  match s with
  | EmptyString => EmptyString
  | String c rest => String (lower_ascii c) (lower rest)
  end.

(** ** Field descriptors ([ludwig.schema.utils]) *)

(** Modelled from the spec: the field builders of [ludwig/schema/utils.py]
    and the loading of a marshmallow schema are not part of the sources.
    A field constraint descriptor carries a semantic type, a default, an
    optional list of allowed values, optional numeric bounds and a
    nullability flag; [PositiveInteger] is an integer with minimum 1,
    [NonNegativeFloat] a number with minimum 0, [FloatRange(min, max)] a
    number with both bounds, a string with [options] an enumeration, and an
    optional field admits null.  Loading applies the declared default to a
    field that is absent from the mapping, checks every field that is
    present, treats an unknown extra field as a violation and reports all
    violations as one [ValidationError].  The constructors keep the
    arguments the sources pass; where the sources leave [allow_none] out the
    value written here is the one that makes the declared default legal. *)
Module schema_utils.

Inductive field_desc : Type :=
| StringOptions (options : list string) (default : value) (allow_none : bool)
| String_ (default : value) (allow_none : bool)
| PositiveInteger (default : value)
| NonNegativeInteger (default : value)
| NonNegativeFloat (default : value)
| FloatRange (default : value) (allow_none : bool) (min max : Q)
| FloatRangeTupleDataclassField (default : value) (allow_none : bool) (max : option Q)
| Boolean (default : value)
| Dict (default : value).

Definition field_default (f : field_desc) : value :=
  match f with
  | StringOptions _ d _ | String_ d _ | PositiveInteger d | NonNegativeInteger d
  | NonNegativeFloat d | FloatRange d _ _ _ | FloatRangeTupleDataclassField d _ _
  | Boolean d | Dict d => d
  end.

Definition invalid {A} (msg : string) : result A :=
  raise ValidationError [Lit msg].

Definition null_or {A} (allow_none : bool) (v : A) : result A :=
  if allow_none then Ok v else invalid "Field may not be null.".

(** A number is an integer or a float; a float field stores it as a float. *)
Definition as_number (v : value) : option Q :=
  match v with
  | VInt z => Some (inject_Z z)
  | VFloat q => Some q
  | _ => None
  end.

Definition in_bounds (min max : option Q) (q : Q) : bool :=
  andb (match min with Some lo => Qle_bool lo q | None => true end)
       (match max with Some hi => Qle_bool q hi | None => true end).

Definition deserialize_number (min max : option Q) (v : value) : result value :=
  match as_number v with
  | Some q => if in_bounds min max q then Ok (VFloat q)
              else invalid "Must be within the declared range."
  | None => invalid "Not a valid number."
  end.

Definition deserialize_integer (min : Z) (v : value) : result value :=
  match v with
  | VInt z => if Z.leb min z then Ok v
              else invalid "Must be greater than or equal to the minimum."
  | _ => invalid "Not a valid integer."
  end.

Definition sequence_items (v : value) : option (list value) :=
  match v with
  | VList items | VTuple items => Some items
  | _ => None
  end.

(** Modelled from the spec: the field builders are missing; the value of
    one field that is present in the mapping, checked against the semantic
    type, the options, the bounds and the nullability of its descriptor. *)
Definition deserialize_field (f : field_desc) (v : value) : result value :=
  match f with
  | StringOptions options _ allow_none =>
      match v with
      | VNone => null_or allow_none VNone
      | VStr s => if existsb (String.eqb s) options then Ok v
                  else invalid "Must be one of the options."
      | _ => invalid "Not a valid string."
      end
  | String_ _ allow_none =>
      match v with
      | VNone => null_or allow_none VNone
      | VStr _ => Ok v
      | _ => invalid "Not a valid string."
      end
  | PositiveInteger _ => deserialize_integer 1 v
  | NonNegativeInteger _ => deserialize_integer 0 v
  | NonNegativeFloat _ => deserialize_number (Some 0%Q) None v
  | FloatRange _ allow_none lo hi =>
      match v with
      | VNone => null_or allow_none VNone
      | _ => deserialize_number (Some lo) (Some hi) v
      end
  | FloatRangeTupleDataclassField _ allow_none hi =>
      match v with
      | VNone => null_or allow_none VNone
      | _ =>
          match sequence_items v with
          | Some [a; b] =>
              a' <- deserialize_number None hi a ;;
              b' <- deserialize_number None hi b ;;
              Ok (VTuple [a'; b'])
          | Some _ => invalid "Must be a pair."
          | None => invalid "Not a valid tuple."
          end
      end
  | Boolean _ =>
      match v with
      | VBool _ => Ok v
      | _ => invalid "Not a valid boolean."
      end
  | Dict _ =>
      match v with
      | VNone | VDict _ => Ok v
      | _ => invalid "Not a valid mapping type."
      end
  end.

(** A config class: its name and its declared fields, in order. *)
Record config_class : Type := mkClass {
  cls_name : string;
  cls_fields : list (string * field_desc)
}.

(** An instance of a config class. *)
Record config_obj : Type := mkObj {
  obj_class : string;
  obj_fields : list (string * value)
}.

(** Loaded values and per-field violations of the declared fields. *)
Fixpoint load_fields (fields : list (string * field_desc)) (data : list (string * value))
  : list (string * value) * list (string * list frag) :=
  match fields with
  | [] => ([], [])
  | (name, f) :: rest =>
      let '(vals, errs) := load_fields rest data in
      match PyDict.lookup name data with
      | None => ((name, field_default f) :: vals, errs)
      | Some v =>
          match deserialize_field f v with
          | Ok v' => ((name, v') :: vals, errs)
          | Raise e => (vals, (name, exn_msg e) :: errs)
          end
      end
  end.

Definition unknown_fields (fields : list (string * field_desc)) (data : list (string * value))
  : list (string * list frag) :=
  map (fun k => (k, [Lit "Unknown field."]))
      (filter (fun k => negb (PyDict.contains k fields)) (PyDict.keys data)).

Definition error_frags (errs : list (string * list frag)) : list frag :=
  flat_map (fun '(name, msg) => Lit name :: msg) errs.

(** Modelled from the spec: [cls.Schema().load(data)], whose class
    ([BaseMarshmallowConfig]) is missing; declared defaults for absent
    fields, all violations in one [ValidationError]. *)
Definition Schema_load (cls : config_class) (data : value) : result config_obj :=
  match data with
  | VDict d =>
      let '(vals, errs) := load_fields (cls_fields cls) d in
      match errs ++ unknown_fields (cls_fields cls) d with
      | [] => Ok (mkObj (cls_name cls) vals)
      | errs' => raise ValidationError (error_frags errs')
      end
  | _ => raise ValidationError [Lit "Invalid input type."]
  end.

(** Modelled from the spec: [cls.Schema().dump(obj)], for an object given
    by its attributes: every declared field, an absent attribute replaced by
    the field's default. *)
Definition Schema_dump (cls : config_class) (attrs : list (string * value)) : value :=
  VDict (map (fun '(name, f) =>
                (name, match PyDict.lookup name attrs with
                       | Some v => v
                       | None => field_default f
                       end))
             (cls_fields cls)).

(** The attribute [name] of a loaded object. *)
Definition getattr (o : config_obj) (name : string) : option value :=
  PyDict.lookup name (obj_fields o).

End schema_utils.

(** ** The registry ([ludwig.utils.registry.Registry]) *)

(** What a registry of config classes can hold, and what subscripting it
    gives: [obj[i]] is defined on a tuple and is a [TypeError] on a class. *)
Inductive pyobj : Type :=
| PyClass (cls : schema_utils.config_class)
| PyTuple (items : list pyobj).

Definition py_getitem (o : pyobj) (i : nat) : result pyobj :=
  match o with
  | PyTuple items =>
      match nth_error items i with
      | Some x => Ok x
      | None => raise LookupError [Lit "tuple index out of range"]
      end
  | PyClass cls =>
      raise TypeError [ReprCls (schema_utils.cls_name cls); Lit " is not subscriptable"]
  end.

(** [obj.Schema().load(data)]: only a config class has a [Schema]. *)
Definition py_Schema_load (o : pyobj) (data : value) : result schema_utils.config_obj :=
  match o with
  | PyClass cls => schema_utils.Schema_load cls data
  | PyTuple _ => raise (OtherError "AttributeError") [Lit "'tuple' object has no attribute 'Schema'"]
  end.

(** Modelled from the spec: the [Registry] class of
    [ludwig/utils/registry.py] is not part of the sources.  It is a
    name-to-implementation mapping: [register(name, value)] stores the value
    under the lowercased name and the last registration of a name wins,
    [get(name)] fails with a [LookupError]-kind error on an absent name, the
    keys come in registration order, and [contains(name)] tests membership.
    As for every Python mapping, testing an unhashable key (a list or a
    dict) is a [TypeError]. *)
Module Registry.

Definition t : Type := list (string * pyobj).

Definition empty : t := [].

Definition setitem (name : string) (o : pyobj) (r : t) : t :=
  PyDict.set (lower name) o r.

Definition getitem (name : string) (r : t) : result pyobj :=
  match PyDict.lookup name r with
  | Some o => Ok o
  | None => raise LookupError [Lit name]
  end.

Definition keys (r : t) : list string := PyDict.keys r.

(** [key in registry] *)
Definition contains (key : value) (r : t) : result bool :=
  if hashable key then
    match key with
    | VStr name => Ok (PyDict.contains name r)
    | _ => Ok false
    end
  else raise TypeError [Lit "unhashable type"].

End Registry.

(** ** [ludwig/schema/hyperopt/scheduler.py] *)

Module scheduler.
Import schema_utils.

Definition TRAINING_ITERATION := "training_iteration".
Definition TIME_TOTAL_S := "time_total_s".
Definition TIMESTEPS_TOTAL := "timesteps_total".
Definition MEAN_ACCURACY := "mean_accuracy".
Definition MEAN_LOSS := "mean_loss".
Definition DEFAULT_RESULT_KEYS :=
  [TRAINING_ITERATION; TIME_TOTAL_S; TIMESTEPS_TOTAL; MEAN_ACCURACY; MEAN_LOSS].
Definition RAY_TUNE_DESULT_DEFAULT_METRIC := "_metric".

(** The fields the variants share. *)
Definition time_attr (default : string) : string * field_desc :=
  ("time_attr", StringOptions DEFAULT_RESULT_KEYS (VStr default) false).
Definition metric : string * field_desc :=
  ("metric", StringOptions (DEFAULT_RESULT_KEYS ++ [RAY_TUNE_DESULT_DEFAULT_METRIC]) VNone true).
Definition mode : string * field_desc :=
  ("mode", StringOptions ["min"; "max"] VNone true).

Definition AsyncHyperbandSchedulerConfig : config_class :=
  mkClass "AsyncHyperbandSchedulerConfig"
    [ ("type", StringOptions ["async_hyperband"] (VStr "async_hyperband") false);
      time_attr TRAINING_ITERATION;
      metric;
      mode;
      ("max_t", PositiveInteger (VInt 100));
      ("grace_period", PositiveInteger (VInt 1));
      ("reduction_factor", NonNegativeFloat (VInt 4)) ].

Definition HyperbandSchedulerConfig : config_class :=
  mkClass "HyperbandSchedulerConfig"
    [ ("type", StringOptions ["hyperband"] (VStr "hyperband") false);
      time_attr TRAINING_ITERATION;
      metric;
      mode;
      ("max_t", PositiveInteger (VInt 81));
      ("reduction_factor", NonNegativeFloat (VInt 3));
      ("stop_last_trials", Boolean (VBool true)) ].

Definition MedianStoppingRuleSchedulerConfig : config_class :=
  mkClass "MedianStoppingRuleSchedulerConfig"
    [ ("type", StringOptions ["median_stopping_rule"] (VStr "median_stopping_rule") false);
      time_attr TIME_TOTAL_S;
      metric;
      mode;
      ("grace_period", NonNegativeFloat (VFloat 60));
      ("min_samples_required", PositiveInteger (VInt 3));
      ("min_time_slice", NonNegativeInteger (VInt 0));
      ("hard_stop", Boolean (VBool true)) ].

Definition PopulationBasedTrainingSchedulerConfig : config_class :=
  mkClass "PopulationBasedTrainingSchedulerConfig"
    [ ("type", StringOptions ["pbt"] (VStr "pbt") false);
      time_attr TIME_TOTAL_S;
      metric;
      mode;
      ("perturbation_interval", NonNegativeFloat (VFloat 60));
      ("burn_in_period", NonNegativeFloat (VFloat 60));
      ("hyperparam_mutations", Dict VNone);
      ("quantile_fraction", FloatRange (VFloat (1 # 4)) false 0 (1 # 2));
      ("resample_probability", NonNegativeFloat (VFloat (1 # 4)));
      ("perturbation_factors",
       FloatRangeTupleDataclassField (VTuple [VFloat (6 # 5); VFloat (4 # 5)]) false None);
      ("custom_explore_fn", String_ VNone true);
      ("log_config", Boolean (VBool true));
      ("require_attrs", Boolean (VBool true));
      ("synch", Boolean (VBool false)) ].

Definition PopulationBasedTrainingReplaySchedulerConfig : config_class :=
  mkClass "PopulationBasedTrainingReplaySchedulerConfig"
    [ ("type", StringOptions ["pbt_replay"] (VStr "pbt_replay") false);
      ("policy_file", String_ VNone true) ].

Definition PopulationBasedBanditsSchedulerConfig : config_class :=
  mkClass "PopulationBasedBanditsSchedulerConfig"
    [ ("type", StringOptions ["pb2"] (VStr "pb2") false);
      time_attr TIME_TOTAL_S;
      metric;
      mode;
      ("perturbation_interval", NonNegativeFloat (VFloat 60));
      ("hyperparam_bounds", Dict VNone);
      ("quantile_fraction", FloatRange (VFloat (1 # 4)) false 0 (1 # 2));
      ("log_config", Boolean (VBool true));
      ("require_attrs", Boolean (VBool true));
      ("synch", Boolean (VBool false)) ].

Definition BOHBSchedulerConfig : config_class :=
  mkClass "BOHBSchedulerConfig"
    [ ("type", StringOptions ["bohb"] (VStr "bohb") false);
      time_attr TRAINING_ITERATION;
      metric;
      mode;
      ("max_t", PositiveInteger (VInt 81));
      ("reduction_factor", NonNegativeFloat (VInt 3));
      ("stop_last_trials", Boolean (VBool true)) ].

Definition FIFOSchedulerConfig : config_class :=
  mkClass "FIFOSchedulerConfig"
    [ ("type", StringOptions ["fifo"] (VStr "fifo") false) ].

Definition ResourceChangingSchedulerConfig : config_class :=
  mkClass "ResourceChangingSchedulerConfig"
    [ ("type", StringOptions ["resource_changing"] (VStr "resource_changing") false);
      ("base_scheduler", String_ VNone true);
      ("resources_allocation_function", String_ VNone true) ].

(** [scheduler_config_registry[name] = scheduler_config]: the class itself
    is what is stored. *)
Definition register_scheduler_config (name : string) (scheduler_config : config_class)
    (registry : Registry.t) : Registry.t :=
  Registry.setitem name (PyClass scheduler_config) registry.

(** The registrations in the order the module performs them: decorators
    apply from the innermost outwards, classes from top to bottom. *)
Definition registrations : list (string * config_class) :=
  [ ("asynchyperband", AsyncHyperbandSchedulerConfig);
    ("async_hyperband", AsyncHyperbandSchedulerConfig);
    ("hyperband", HyperbandSchedulerConfig);
    ("medianstoppingrule", MedianStoppingRuleSchedulerConfig);
    ("median_stopping_rule", MedianStoppingRuleSchedulerConfig);
    ("pbt", PopulationBasedTrainingSchedulerConfig);
    ("pbt_replay", PopulationBasedTrainingReplaySchedulerConfig);
    ("pb2", PopulationBasedBanditsSchedulerConfig);
    ("hb_bohb", BOHBSchedulerConfig);
    ("fifo", FIFOSchedulerConfig);
    ("resource_changing", ResourceChangingSchedulerConfig) ].

Definition scheduler_config_registry : Registry.t :=
  fold_left (fun r '(name, cls) => register_scheduler_config name cls r)
            registrations Registry.empty.

(** [except (TypeError, ValidationError) as e: raise ValidationError(msg e)] *)
Definition reraise_as_validation {A} (r : result A) (msg : exn -> list frag) : result A :=
  match r with
  | Ok a => Ok a
  | Raise e =>
      match exn_kind_of e with
      | TypeError | ValidationError => raise ValidationError (msg e)
      | _ => Raise e
      end
  end.

Definition pyobj_name (o : pyobj) : string :=
  match o with
  | PyClass cls => cls_name cls
  | PyTuple _ => "tuple"
  end.

(** [value["type"].lower()] *)
Definition str_lower (v : value) : result string :=
  match v with
  | VStr s => Ok (lower s)
  | _ => raise (OtherError "AttributeError") [Lit "object has no attribute 'lower'"]
  end.

(** [OptimizerMarshmallowField._deserialize(value, attr, data)]; the
    result [None] is the Python [None] returned for a null value. *)
Definition OptimizerMarshmallowField_deserialize (value : value)
  : result (option config_obj) :=
  match value with
  | VNone => Ok None
  | VDict d =>
      valid_type <-
        match PyDict.lookup "type" d with
        | Some ty => Registry.contains ty scheduler_config_registry
        | None => Ok false
        end ;;
      if (valid_type : bool) then
        match PyDict.lookup "type" d with
        | Some ty =>
            name <- str_lower ty ;;
            entry <- Registry.getitem name scheduler_config_registry ;;
            opt <- py_getitem entry 1 ;;
            reraise_as_validation
              (o <- py_Schema_load opt value ;; Ok (Some o))
              (fun e =>
                 [Lit "Invalid params for optimizer: "; Repr value; Lit ", see `";
                  ReprCls (pyobj_name opt); Lit "` definition. Error: ";
                  ReprExn (exn_kind_of e) (exn_msg e)])
        | None => raise LookupError [Lit "type"]
        end
      else
        raise ValidationError
          [Lit "Invalid params for optimizer: "; Repr value;
           Lit ", expect dict with at least a valid `type` attribute."]
  | _ => raise ValidationError [Lit "Field should be None or dict"]
  end.

(** What [field(metadata=..., default_factory=...)] is built from. *)
Record dataclass_field : Type := mkField {
  allow_none : bool;
  dump_default : value;
  load_default : config_obj;
  description : string
}.


(** [except Exception as e: raise ValidationError(msg)] *)
Definition reraise_any {A} (r : result A) (msg : exn -> list frag) : result A :=
  match r with
  | Ok a => Ok a
  | Raise e => raise ValidationError (msg e)
  end.

(** [opt.Schema().dump(attrs)] *)
Definition py_Schema_dump (o : pyobj) (attrs : list (string * value)) : result value :=
  match o with
  | PyClass cls => Ok (Schema_dump cls attrs)
  | PyTuple _ =>
      raise (OtherError "AttributeError") [Lit "'tuple' object has no attribute 'Schema'"]
  end.

Definition invalid_default {A} (default : value) : result A :=
  raise ValidationError [Lit "Invalid default: `"; Repr default; Lit "`"].

(** [SchedulerDataclassField(default, description)] *)
Definition SchedulerDataclassField (default : value) (description : string)
  : result dataclass_field :=
  match default with
  | VDict d =>
      match PyDict.lookup "type" d with
      | Some ty =>
          registered <- Registry.contains ty scheduler_config_registry ;;
          if (registered : bool) then
            reraise_any
              (name <- str_lower ty ;;
               opt <- Registry.getitem name scheduler_config_registry ;;
               load_default <- py_Schema_load opt default ;;
               dump_default <- py_Schema_dump opt d ;;
               Ok (mkField false dump_default load_default description))
              (fun e =>
                 [Lit "Unsupported scheduler type: "; Repr ty;
                  Lit ". See scheduler_config_registry. Details: ";
                  ReprExn (exn_kind_of e) (exn_msg e)])
          else invalid_default default
      | None => invalid_default default
      end
  | _ => invalid_default default
  end.

(** The defaults a class declares. *)
Definition declared_defaults (cls : config_class) : list (string * value) :=
  map (fun '(name, f) => (name, field_default f)) (cls_fields cls).

(** The discriminator values the [type] field of a class admits. *)
Definition type_options (cls : config_class) : list string :=
  match PyDict.lookup "type" (cls_fields cls) with
  | Some (StringOptions options _ _) => options
  | _ => []
  end.

(** The default mapping of the hyperband variant. *)
Definition hyperband_default_mapping : value :=
  VDict [ ("type", VStr "hyperband"); ("max_t", VInt 81);
          ("reduction_factor", VInt 3); ("stop_last_trials", VBool true) ].

(** The defaults [SchedulerDataclassField] has to refuse: not a mapping, no
    [type] key, a [type] that is not registered, or a mapping the class
    registered for its [type] does not load. *)
Inductive malformed_default : value -> Prop :=
| not_a_mapping default :
    isinstance_dict default = false -> malformed_default default
| type_missing d :
    PyDict.lookup "type" d = None -> malformed_default (VDict d)
| type_unregistered d ty :
    PyDict.lookup "type" d = Some ty ->
    Registry.contains ty scheduler_config_registry = Ok false ->
    malformed_default (VDict d)
| violates_variant d name cls :
    PyDict.lookup "type" d = Some (VStr name) ->
    PyDict.lookup name scheduler_config_registry = Some (PyClass cls) ->
    ~ succeeds (Schema_load cls (VDict d)) ->
    malformed_default (VDict d).

(** A mapping for the ["pbt"] variant that sets [quantile_fraction]. *)
Definition pbt_with_quantile_fraction (v : value) : value :=
  VDict [ ("type", VStr "pbt"); ("quantile_fraction", v) ].



Section JsonSchema.
(** The helpers of [ludwig.schema.utils] that turn a config class into a JSON
    schema, drop the fields a conditional must not repeat (in place) and
    build one conditional are outside the sources. *)
Variable unload_jsonschema_from_marshmallow_class : pyobj -> result (list (string * value)).
Variable remove_duplicate_fields : value -> value.
Variable create_cond : value -> value -> value.



End JsonSchema.

(** The names whose minimal mapping [SchedulerDataclassField] accepts. *)
Definition loadable_names : list string :=
  [ "async_hyperband"; "hyperband"; "median_stopping_rule"; "pbt"; "pbt_replay";
    "pb2"; "fifo"; "resource_changing" ].

End scheduler.

(** ** [ludwig/schema/hyperopt/search_algorithm.py] *)

Module search_algorithm.
Import schema_utils.

Section WithRegistry.
(** [list(search_algorithm_registry.keys())]: the registry of
    [ludwig.hyperopt.registry] is populated outside the sources. *)
Variable search_algorithm_registry_keys : list string.

Definition BaseSearchAlgorithmConfig : config_class :=
  mkClass "BaseSearchAlgorithmConfig"
    [ ("type", StringOptions search_algorithm_registry_keys (VStr "hyperopt") false) ].

(** [SearchAlgorithmMarshmallowField._deserialize(value, attr, data)] *)
Definition SearchAlgorithmMarshmallowField_deserialize (value : value)
  : result config_obj :=
  if isinstance_dict value then
    scheduler.reraise_as_validation
      (Schema_load BaseSearchAlgorithmConfig value)
      (fun _ =>
         [Lit "Invalid params for scheduler: "; Repr value;
          Lit ", see SearchAlgorithmConfig class."])
  else raise ValidationError [Lit "Field should be dict"].

(** [SearchAlgorithmDataclassField(description, default)] *)
Definition SearchAlgorithmDataclassField (description : string) (default : value)
  : result scheduler.dataclass_field :=
  match default with
  | VDict d =>
      load_default <- Schema_load BaseSearchAlgorithmConfig default ;;
      let dump_default := Schema_dump BaseSearchAlgorithmConfig d in
      Ok (scheduler.mkField false dump_default load_default description)
  | _ => raise ValidationError [Lit "Invalid default: `"; Repr default; Lit "`"]
  end.
(** [SearchAlgorithmMarshmallowField._jsonschema_type_mapping()]: the
    unloaded schema of the base class, then the title and the description,
    a later key overriding an earlier one.  The unloading helper of
    [ludwig.schema.utils] is outside the sources. *)
Definition SearchAlgorithmMarshmallowField_jsonschema_type_mapping
    (unload_jsonschema_from_marshmallow_class : config_class -> list (string * value))
    (description : string) : value :=
  VDict (PyDict.set "description" (VStr description)
           (PyDict.set "title" (VStr "scheduler")
              (unload_jsonschema_from_marshmallow_class BaseSearchAlgorithmConfig))).
End WithRegistry.

End search_algorithm.

(** ** [ludwig/config_validation/validation.py] *)

(** Modelled from the spec: [ludwig/constants.py] is not part of the sources.
    The names are the section names of the assembled top-level schema and
    the model type of the architecture that has a combiner stage. *)
Module constants.
Definition BACKEND := "backend".
Definition COMBINER := "combiner".
Definition DEFAULTS := "defaults".
Definition HYPEROPT := "hyperopt".
Definition INPUT_FEATURES := "input_features".
Definition LUDWIG_VERSION := "ludwig_version".
Definition MODEL_ECD := "ecd".
Definition MODEL_TYPE := "model_type".
Definition OUTPUT_FEATURES := "output_features".
Definition PREPROCESSING := "preprocessing".
Definition SPLIT := "split".
Definition TRAINER := "trainer".
End constants.

(** [functools.lru_cache(maxsize)] around a one-argument function called
    with string arguments: the entries, most recently used first. *)
Module lru_cache.
Section Cache.
Context {V : Type}.
Variable maxsize : nat.
Variable f : string -> V.

Definition t : Type := list (string * V).

Fixpoint remove (k : string) (c : t) : t :=
  match c with
  | [] => []
  | (k', v) :: rest => if String.eqb k k' then rest else (k', v) :: remove k rest
  end.

(** One call: a hit returns the stored result and refreshes the entry, a
    miss computes, stores and evicts the least recently used entries. *)
Definition call (c : t) (k : string) : V * t :=
  match PyDict.lookup k c with
  | Some v => (v, (k, v) :: remove k c)
  | None => let v := f k in (v, firstn maxsize ((k, v) :: c))
  end.

(** The cache after a history of calls, oldest first. *)
Definition after (history : list string) : t :=
  fold_left (fun c k => snd (call c k)) history [].

(** Every entry holds the result of the function on its key. *)
Definition consistent (c : t) : Prop :=
  Forall (fun '(k, v) => v = f k) c.
End Cache.
End lru_cache.

(** The JSON-schema type checker of the [jsonschema] library: a mapping from
    type names to predicates on instances. *)
Module jsonschema.

Definition TypeChecker : Type := list (string * (value -> bool)).

Definition is_integral (q : Q) : bool :=
  Z.eqb (Z.modulo (Qnum q) (Z.pos (Qden q))) 0.

(** [Draft7Validator.TYPE_CHECKER] *)
Definition draft7_type_checker : TypeChecker :=
  [ ("array", isinstance_list);
    ("boolean", fun v => match v with VBool _ => true | _ => false end);
    ("integer", fun v => match v with
                         | VInt _ => true
                         | VFloat q => is_integral q
                         | _ => false
                         end);
    ("object", isinstance_dict);
    ("null", is_none);
    ("number", fun v => match v with VInt _ | VFloat _ => true | _ => false end);
    ("string", fun v => match v with VStr _ => true | _ => false end) ].

(** [checker.redefine(type, fn)]; [fn] receives the checker and the
    instance. *)
Definition redefine (type : string) (fn : TypeChecker -> value -> bool)
    (checker : TypeChecker) : TypeChecker :=
  PyDict.set type (fn checker) checker.

(** [checker.is_type(instance, type)] *)
Definition is_type (checker : TypeChecker) (instance : value) (type : string)
  : result bool :=
  match PyDict.lookup type checker with
  | Some fn => Ok (fn instance)
  | None => raise (OtherError "UndefinedTypeCheck") [Lit type]
  end.

(** A validator class: the dialect it extends and its type checker. *)
Record validator_class : Type := mkValidator {
  dialect : string;
  TYPE_CHECKER : TypeChecker
}.

Definition Draft7Validator : validator_class :=
  mkValidator "Draft7Validator" draft7_type_checker.

(** [extend(validator, type_checker=...)] *)
Definition extend (validator : validator_class) (type_checker : TypeChecker)
  : validator_class :=
  mkValidator (dialect validator) type_checker.

(** The [type] keyword: the instance has one of the listed types. *)
Definition ensure_list (types : value) : list value :=
  match types with
  | VStr _ => [types]
  | VList items => items
  | _ => []
  end.

Fixpoint any_is_type (cls : validator_class) (instance : value) (types : list value)
  : result bool :=
  match types with
  | [] => Ok false
  | VStr type :: rest =>
      b <- is_type (TYPE_CHECKER cls) instance type ;;
      if (b : bool) then Ok true else any_is_type cls instance rest
  | _ :: rest => any_is_type cls instance rest
  end.

Definition type_keyword (cls : validator_class) (types instance : value) : result unit :=
  b <- any_is_type cls instance (ensure_list types) ;;
  if (b : bool) then Ok tt
  else raise ValidationError [Repr instance; Lit " is not of type "; Repr types].

End jsonschema.

Module validation.
Import constants.

Definition get_ludwig_version_jsonschema : value :=
  VDict [ ("type", VStr "string");
          ("title", VStr "ludwig_version");
          ("description", VStr "Current Ludwig model schema version.") ].

Definition get_backend_jsonschema : value :=
  VDict [ ("type", VStr "object");
          ("title", VStr "backend");
          ("description", VStr "Backend configuration.");
          ("additionalProperties", VBool true) ].

(** A dict display [{k1: v1, ...}]: the items are stored from left to
    right. *)
Definition dict_display (items : list (string * value)) : list (string * value) :=
  fold_left (fun d '(k, v) => PyDict.set k v d) items [].

(** [model_type == MODEL_ECD] *)
Definition eq_str (v : value) (s : string) : bool :=
  match v with
  | VStr s' => String.eqb s' s
  | _ => false
  end.

(** [custom_is_array(checker, instance)] *)
Definition custom_is_array (checker : jsonschema.TypeChecker) (instance : value) : bool :=
  isinstance_list instance || isinstance_tuple instance.

(** [get_validator()]; its cache holds the one class it builds. *)
Definition get_validator : jsonschema.validator_class :=
  let type_checker :=
    jsonschema.redefine "array" custom_is_array
      (jsonschema.TYPE_CHECKER jsonschema.Draft7Validator) in
  jsonschema.extend jsonschema.Draft7Validator type_checker.

(** The calls the orchestrator makes to its collaborators, in order. *)
Inductive event : Type :=
| CallUpgrade (config : value)
| CallGetSplitter (kwargs : list (string * value))
| CallSplitterValidate (config : value)
| LockAcquire
| LockRelease
| CallValidate (instance schema : value).

(** Computations that call collaborators: a result and the calls made. *)
Definition io (A : Type) : Type := list event -> result A * list event.

Definition io_ret {A} (a : A) : io A := fun log => (Ok a, log).

Definition io_bind {A B} (m : io A) (k : A -> io B) : io B :=
  fun log =>
    match m log with
    | (Ok a, log') => k a log'
    | (Raise e, log') => (Raise e, log')
    end.

Definition io_lift {A} (r : result A) : io A := fun log => (r, log).

Notation "x <~ m ;; k" := (io_bind m (fun x => k))
  (at level 61, m at next level, right associativity).

Definition emit (e : event) : io unit := fun log => (Ok tt, log ++ [e]).

(** [with VALIDATION_LOCK: body]: released on every exit path. *)
Definition with_lock {A} (body : io A) : io A :=
  fun log =>
    let '(r, log') := body (log ++ [LockAcquire]) in
    (r, log' ++ [LockRelease]).

Definition run {A} (m : io A) : result A * list event := m [].

(** [mapping.get(key, default)] *)
Definition py_get (mapping : value) (key : string) (default : value) : result value :=
  match mapping with
  | VDict d => Ok (match PyDict.lookup key d with Some v => v | None => default end)
  | _ => raise (OtherError "AttributeError") [Lit "object has no attribute 'get'"]
  end.

(** Unpacking a value as keyword arguments: it must be a mapping. *)
Definition keyword_arguments (kwargs : value) : result (list (string * value)) :=
  match kwargs with
  | VDict d => Ok d
  | _ => raise TypeError [Lit "argument after ** must be a mapping"]
  end.

Section WithCollaborators.
(** The schema builders of the other config families. *)
Variables get_model_type_jsonschema get_input_feature_jsonschema
          get_output_feature_jsonschema get_trainer_jsonschema : value -> value.
Variables get_preprocessing_jsonschema get_hyperopt_jsonschema
          get_defaults_jsonschema get_combiner_jsonschema : value.

(** The body of [get_schema(model_type)]. *)
Definition get_schema_body (model_type : value) : value :=
  let properties :=
    dict_display
      [ (MODEL_TYPE, get_model_type_jsonschema model_type);
        (INPUT_FEATURES, get_input_feature_jsonschema model_type);
        (OUTPUT_FEATURES, get_output_feature_jsonschema model_type);
        (TRAINER, get_trainer_jsonschema model_type);
        (PREPROCESSING, get_preprocessing_jsonschema);
        (HYPEROPT, get_hyperopt_jsonschema);
        (DEFAULTS, get_defaults_jsonschema);
        (LUDWIG_VERSION, get_ludwig_version_jsonschema);
        (BACKEND, get_backend_jsonschema) ] in
  let properties :=
    if eq_str model_type MODEL_ECD
    then PyDict.set COMBINER get_combiner_jsonschema properties
    else properties in
  VDict (dict_display
           [ ("type", VStr "object");
             ("properties", VDict properties);
             ("definitions", VDict []);
             ("required", VList [VStr INPUT_FEATURES; VStr OUTPUT_FEATURES]);
             ("additionalProperties", VBool false) ]).

(** [get_schema] with its [lru_cache(maxsize=2)], on a string. *)
Definition schema_cache : Type := lru_cache.t (V := value).

Definition get_schema (cache : schema_cache) (model_type : string)
  : value * schema_cache :=
  lru_cache.call 2 (fun s => get_schema_body (VStr s)) cache model_type.

Definition cache_after (history : list string) : schema_cache :=
  lru_cache.after 2 (fun s => get_schema_body (VStr s)) history.

(** The version upgrader, the splitter factory with the splitter's
    [validate], and [jsonschema.validate]. *)
Variable splitter : Type.
Variable upgrade_config_dict_to_latest_version : value -> result value.
Variable get_splitter : list (string * value) -> result splitter.
Variable splitter_validate : splitter -> value -> result unit.
Variable validate : value -> value -> jsonschema.validator_class -> result unit.

(** [validate_upgraded_config(updated_config)].  The schema cache is
    transparent, so the schema is the one [get_schema_body] builds; its
    key must be hashable. *)
Definition validate_upgraded_config (updated_config : value) : io unit :=
  model_type <~ io_lift (py_get updated_config MODEL_TYPE (VStr MODEL_ECD)) ;;
  preprocessing <~ io_lift (py_get updated_config PREPROCESSING (VDict [])) ;;
  split <~ io_lift (py_get preprocessing SPLIT (VDict [])) ;;
  kwargs <~ io_lift (keyword_arguments split) ;;
  _ <~ emit (CallGetSplitter kwargs) ;;
  splitter <~ io_lift (get_splitter kwargs) ;;
  _ <~ emit (CallSplitterValidate updated_config) ;;
  _ <~ io_lift (splitter_validate splitter updated_config) ;;
  with_lock
    (schema <~ io_lift (if hashable model_type then Ok (get_schema_body model_type)
                        else raise TypeError [Lit "unhashable type"]) ;;
     _ <~ emit (CallValidate updated_config schema) ;;
     io_lift (validate updated_config schema get_validator)).

(** [validate_config(config)] *)
Definition validate_config (config : value) : io unit :=
  _ <~ emit (CallUpgrade config) ;;
  updated_config <~ io_lift (upgrade_config_dict_to_latest_version config) ;;
  validate_upgraded_config updated_config.

(** The calls [validate_config(config)] makes. *)
Definition calls_of (config : value) : list event :=
  snd (run (validate_config config)).
(** The outcome of [validate_config(config)]. *)
Definition result_of (config : value) : result unit :=
  fst (run (validate_config config)).

(** The keyword arguments [validate_upgraded_config] hands to the splitter
    factory. *)
Definition splitter_kwargs (updated_config : value) : result (list (string * value)) :=
  preprocessing <- py_get updated_config PREPROCESSING (VDict []) ;;
  split <- py_get preprocessing SPLIT (VDict []) ;;
  keyword_arguments split.
End WithCollaborators.

(** The calls made without holding the validation lock. *)
Definition outside_lock (e : event) : bool :=
  match e with
  | CallUpgrade _ | CallGetSplitter _ | CallSplitterValidate _ => true
  | LockAcquire | LockRelease | CallValidate _ _ => false
  end.

(** [get_formatted_validation_error_message(err)]: its body is [pass]. *)
Definition get_formatted_validation_error_message (err : exn) : value := VNone.

(** An upgrader that stamps the configuration with the schema version, and
    collaborators that accept everything. *)
Definition stamping_upgrader (config : value) : result value :=
  match config with
  | VDict d => Ok (VDict (PyDict.set LUDWIG_VERSION (VStr "0.8") d))
  | _ => Ok config
  end.

Definition raw_config_example : value :=
  VDict [ (INPUT_FEATURES, VList []); (OUTPUT_FEATURES, VList []) ].

Definition upgraded_config_example : value :=
  VDict [ (INPUT_FEATURES, VList []); (OUTPUT_FEATURES, VList []);
          (LUDWIG_VERSION, VStr "0.8") ].

Definition calls_of_example : list event :=
  calls_of (fun _ => VDict []) (fun _ => VDict []) (fun _ => VDict []) (fun _ => VDict [])
           (VDict []) (VDict []) (VDict []) (VDict [])
           unit stamping_upgrader (fun _ => Ok tt) (fun _ _ => Ok tt) (fun _ _ _ => Ok tt)
           raw_config_example.

(** An upgrader and a splitter that refuse everything, and a run with
    chosen upgrader and splitter. *)
Definition failing_upgrader (config : value) : result value :=
  raise ValidationError [Lit "unsupported ludwig_version"].

Definition rejecting_splitter (s : unit) (config : value) : result unit :=
  raise ValidationError [Lit "split column is not a feature"].

Definition example_outcome (upgrader : value -> result value)
    (splitter_validate : unit -> value -> result unit) (config : value)
  : result unit * list event :=
  run (validate_config
         (fun _ => VDict []) (fun _ => VDict []) (fun _ => VDict []) (fun _ => VDict [])
         (VDict []) (VDict []) (VDict []) (VDict [])
         unit upgrader (fun _ => Ok tt) splitter_validate (fun _ _ _ => Ok tt) config).

(** A configuration that asks for a fixed split, and its upgrade. *)
Definition split_config_example : value :=
  VDict [ (PREPROCESSING, VDict [ (SPLIT, VDict [ ("type", VStr "fixed") ]) ]) ].

Definition upgraded_split_config_example : list (string * value) :=
  [ (PREPROCESSING, VDict [ (SPLIT, VDict [ ("type", VStr "fixed") ]) ]);
    (LUDWIG_VERSION, VStr "0.8") ].

End validation.

(** * Properties *)

(** ** Association lists *)

Section PyDictFacts.
Context {A : Type}.
Implicit Types (d : list (string * A)) (k : string) (v : A).

Lemma lookup_set_same k v d : PyDict.lookup k (PyDict.set k v d) = Some v.
Proof.
  induction d as [|[k' v'] rest IH]; simpl.
  - now rewrite String.eqb_refl.
  - destruct (String.eqb k k') eqn:E; simpl; rewrite ?String.eqb_refl, ?E; auto.
Qed.

Lemma lookup_set_other k k' v d :
  k' <> k -> PyDict.lookup k' (PyDict.set k v d) = PyDict.lookup k' d.
Proof.
  intros Hne. induction d as [|[k0 v0] rest IH]; simpl.
  - apply String.eqb_neq in Hne. now rewrite Hne.
  - destruct (String.eqb k k0) eqn:E; simpl.
    + apply String.eqb_eq in E. subst k0.
      apply String.eqb_neq in Hne. now rewrite Hne.
    + destruct (String.eqb k' k0); auto.
Qed.

Lemma contains_In k d : PyDict.contains k d = true <-> In k (PyDict.keys d).
Proof.
  unfold PyDict.contains. induction d as [|[k' v'] rest IH]; simpl.
  - split; [discriminate | tauto].
  - destruct (String.eqb k k') eqn:E.
    + apply String.eqb_eq in E. subst. split; auto.
    + apply String.eqb_neq in E. rewrite IH.
      split; [auto | intros [H|H]; congruence].
Qed.

Lemma lookup_In k v d : PyDict.lookup k d = Some v -> In (k, v) d.
Proof.
  induction d as [|[k' v'] rest IH]; simpl; [discriminate|].
  destruct (String.eqb k k') eqn:E.
  - apply String.eqb_eq in E. intros [= ->]. subst. now left.
  - auto.
Qed.
End PyDictFacts.

(** ** The scheduler registry *)

Section SchedulerRegistry.
Import schema_utils scheduler.

Lemma registry_keys :
  Registry.keys scheduler_config_registry =
  ["asynchyperband"; "async_hyperband"; "hyperband"; "medianstoppingrule";
   "median_stopping_rule"; "pbt"; "pbt_replay"; "pb2"; "hb_bohb"; "fifo";
   "resource_changing"].
Proof. reflexivity. Qed.

(** Every registered name is bound to a config class, is its own lower
    case, and is the name it was registered under. *)
Lemma registered_entry name :
  In name (Registry.keys scheduler_config_registry) ->
  lower name = name /\
  exists cls, PyDict.lookup name scheduler_config_registry = Some (PyClass cls) /\
              In (name, cls) registrations.
Proof.
  rewrite registry_keys. simpl.
  intros H.
  repeat (destruct H as [<- | H];
          [split; [reflexivity | eexists; split; [reflexivity | simpl; tauto]] |]).
  contradiction.
Qed.

Lemma contains_registered name :
  Registry.contains (VStr name) scheduler_config_registry = Ok true <->
  In name (Registry.keys scheduler_config_registry).
Proof.
  unfold Registry.contains, Registry.keys.
  change (hashable (VStr name)) with true. cbv iota.
  rewrite <- contains_In.
  destruct (PyDict.contains name scheduler_config_registry); split; congruence.
Qed.

(** A membership test that answers yes was asked about a registered
    name. *)
Lemma contains_true_inv ty :
  Registry.contains ty scheduler_config_registry = Ok true ->
  exists name, ty = VStr name /\ In name (Registry.keys scheduler_config_registry).
Proof.
  unfold Registry.contains.
  destruct (hashable ty); [|discriminate].
  destruct ty; try discriminate.
  intros H. exists s. split; [reflexivity|].
  now apply contains_registered.
Qed.

(** The membership test never fails on a hashable key. *)
Lemma contains_hashable ty :
  hashable ty = true ->
  exists b, Registry.contains ty scheduler_config_registry = Ok b.
Proof.
  unfold Registry.contains. intros ->. destruct ty; eauto.
Qed.
End SchedulerRegistry.

(** ** The scheduler field *)

Section SchedulerField.
Import schema_utils scheduler.

(** C1.  For every discriminator value registered in the scheduler
    registry, aliases included, the scheduler field loader is expected to
    turn the minimal mapping with that [type] into the variant's default
    config object.  It does not: for every mapping whose [type] is a
    registered name, [_deserialize] subscripts the registered config class
    with [[1]], and the resulting [TypeError] is raised outside the [try]
    block, so no config object is returned. *)
Theorem C1_registered_type_raises_TypeError :
  forall (d : list (string * value)) (name : string),
    PyDict.lookup "type" d = Some (VStr name) ->
    In name (Registry.keys scheduler_config_registry) ->
    raises (OptimizerMarshmallowField_deserialize (VDict d)) TypeError.
Proof.
  intros d name Hty Hreg.
  unfold OptimizerMarshmallowField_deserialize.
  rewrite Hty.
  apply contains_registered in Hreg as Hin. rewrite Hin. simpl.
  destruct (registered_entry name Hreg) as [Hlow [cls [Hcls _]]].
  rewrite Hlow. unfold Registry.getitem. rewrite Hcls. simpl.
  eexists. reflexivity.
Qed.

Lemma C1_registered_type_raises_TypeError_witness :
  raises (OptimizerMarshmallowField_deserialize (VDict [("type", VStr "hb_bohb")]))
         TypeError.
Proof.
  apply (C1_registered_type_raises_TypeError [("type", VStr "hb_bohb")] "hb_bohb").
  - reflexivity.
  - rewrite registry_keys. simpl. tauto.
Defined.

(** Loading the minimal mapping with the class a name is registered for
    (what the sibling path [SchedulerDataclassField] does): the declared
    defaults when the class admits the name as its [type], a
    [ValidationError] otherwise. *)
Lemma minimal_mapping_class_load name cls :
  In (name, cls) registrations ->
  (In name (type_options cls) ->
   Schema_load cls (VDict [("type", VStr name)]) =
     Ok (mkObj (cls_name cls) (declared_defaults cls)) /\
   PyDict.lookup "type" (declared_defaults cls) = Some (VStr name)) /\
  (~ In name (type_options cls) ->
   raises (Schema_load cls (VDict [("type", VStr name)])) ValidationError).
Proof.
  unfold registrations. simpl. intros H.
  repeat (destruct H as [[= <- <-] | H];
          [split;
           [ intros Hin; first [ split; reflexivity
                               | exfalso; simpl in Hin; intuition discriminate ]
           | intros Hnot; first [ eexists; reflexivity
                                | exfalso; apply Hnot; simpl; tauto ] ] |]).
  contradiction.
Qed.

(** The registered names their own class rejects as [type]: the aliases,
    and the only name of the BOHB variant. *)
Lemma registered_names_rejected_by_their_class :
  filter (fun '(name, cls) => negb (existsb (String.eqb name) (type_options cls)))
         registrations
  = [ ("asynchyperband", AsyncHyperbandSchedulerConfig);
      ("medianstoppingrule", MedianStoppingRuleSchedulerConfig);
      ("hb_bohb", BOHBSchedulerConfig) ].
Proof. reflexivity. Qed.

(** The sibling path: for a registered name its class admits as [type],
    [SchedulerDataclassField] builds the field from the minimal mapping,
    with the declared defaults as its default object. *)
Lemma SchedulerDataclassField_minimal_mapping name cls description :
  In (name, cls) registrations ->
  In name (type_options cls) ->
  SchedulerDataclassField (VDict [("type", VStr name)]) description =
    Ok (mkField false (VDict (declared_defaults cls))
          (mkObj (cls_name cls) (declared_defaults cls)) description).
Proof.
  unfold registrations. simpl. intros H Hin.
  repeat (destruct H as [[= <- <-] | H];
          [first [ reflexivity | exfalso; simpl in Hin; intuition discriminate ] |]).
  contradiction.
Qed.

(** C4 (as amended).  A null value passes through the scheduler field
    deserializer as [None], and a value that is neither null nor a mapping
    fails with a [ValidationError] whose message is "Field should be None
    or dict". *)
Theorem C4_null_passes_non_mapping_ValidationError :
  OptimizerMarshmallowField_deserialize VNone = Ok None /\
  forall v : value,
    is_none v = false -> isinstance_dict v = false ->
    OptimizerMarshmallowField_deserialize v =
      Raise (mkExn ValidationError [Lit "Field should be None or dict"]).
Proof.
  split; [reflexivity|].
  intros v Hnone Hdict.
  destruct v; simpl in *; try discriminate; reflexivity.
Qed.

Lemma C4_null_passes_non_mapping_ValidationError_witness :
  OptimizerMarshmallowField_deserialize (VList [VStr "fifo"]) =
    Raise (mkExn ValidationError [Lit "Field should be None or dict"]).
Proof.
  apply (proj2 C4_null_passes_non_mapping_ValidationError (VList [VStr "fifo"]));
    reflexivity.
Defined.

(** C4 (as stated) fails: the integer 5 is neither null nor a mapping and
    the error raised for it is not of the [TypeError] kind. *)
Lemma C4_non_mapping_is_not_a_TypeError :
  is_none (VInt 5) = false /\ isinstance_dict (VInt 5) = false /\
  ~ raises (OptimizerMarshmallowField_deserialize (VInt 5)) TypeError.
Proof.
  repeat split. intros [msg H]. discriminate H.
Qed.

(** C7.  The round trip of the hyperband default mapping through the
    scheduler loader needs a first load that yields a config object; the
    loader raises a [TypeError] on that mapping instead (the [[1]]
    subscript of C1), so there is nothing to serialize and re-load. *)
Theorem C7_hyperband_default_mapping_raises_TypeError :
  OptimizerMarshmallowField_deserialize hyperband_default_mapping =
    Raise (mkExn TypeError
             [ReprCls "HyperbandSchedulerConfig"; Lit " is not subscriptable"]).
Proof. reflexivity. Qed.

(** With the class taken from the registry as the sibling path does, the
    round trip holds: load, dump, load again gives the same object. *)
Lemma hyperband_class_round_trip :
  exists o,
    Schema_load HyperbandSchedulerConfig hyperband_default_mapping = Ok o /\
    Schema_load HyperbandSchedulerConfig
      (Schema_dump HyperbandSchedulerConfig (obj_fields o)) = Ok o.
Proof. eexists. split; reflexivity. Qed.
End SchedulerField.

(** ** Loading a schema *)

Section SchemaLoad.
Import schema_utils.

(** A present field that violates its descriptor is reported. *)
Lemma load_fields_violation fields d name f v e :
  In (name, f) fields ->
  PyDict.lookup name d = Some v ->
  deserialize_field f v = Raise e ->
  snd (load_fields fields d) <> [].
Proof.
  intros Hin Hv He.
  induction fields as [|[n g] rest IH]; [contradiction|].
  simpl. destruct (load_fields rest d) as [vals errs] eqn:Hrest.
  destruct Hin as [[= -> ->] | Hin].
  - rewrite Hv, He. simpl. discriminate.
  - specialize (IH Hin). simpl in IH.
    destruct (PyDict.lookup n d) as [w|]; [|exact IH].
    destruct (deserialize_field g w); simpl; [exact IH | discriminate].
Qed.

Lemma Schema_load_violation cls d name f v e :
  In (name, f) (cls_fields cls) ->
  PyDict.lookup name d = Some v ->
  deserialize_field f v = Raise e ->
  raises (Schema_load cls (VDict d)) ValidationError.
Proof.
  intros Hin Hv He.
  pose proof (load_fields_violation _ _ _ _ _ _ Hin Hv He) as Hne.
  unfold Schema_load.
  destruct (load_fields (cls_fields cls) d) as [vals errs]. simpl in Hne.
  destruct errs as [|err errs]; [congruence|].
  simpl. eexists. reflexivity.
Qed.

(** Loading fails with a [ValidationError] or not at all. *)
Lemma Schema_load_raises_ValidationError cls data e :
  Schema_load cls data = Raise e -> exn_kind_of e = ValidationError.
Proof.
  unfold Schema_load.
  destruct data; try (intros [= <-]; reflexivity).
  destruct (load_fields (cls_fields cls) items) as [vals errs].
  destruct (errs ++ unknown_fields (cls_fields cls) items);
    [discriminate | intros [= <-]; reflexivity].
Qed.

Lemma float_range_number lo hi q :
  deserialize_number (Some lo) (Some hi) (VFloat q) =
  if Qle_bool lo q && Qle_bool q hi then Ok (VFloat q)
  else invalid "Must be within the declared range.".
Proof. reflexivity. Qed.

Lemma in_range_iff lo hi q :
  Qle_bool lo q && Qle_bool q hi = true <-> (lo <= q <= hi)%Q.
Proof.
  rewrite andb_true_iff, !Qle_bool_iff. tauto.
Qed.
End SchemaLoad.

(** ** Unknown discriminators and malformed defaults *)

Section Discriminators.
Import schema_utils scheduler search_algorithm.

(** C5 (as amended).  A scheduler mapping whose [type] key is absent, or
    whose [type] value is hashable and not in the scheduler registry, fails
    with a [ValidationError]; a search-algorithm mapping whose [type] value
    is present and is not a registered name fails with a [ValidationError].
    A search-algorithm mapping without a [type] key is not rejected for
    that: the empty mapping loads as the config object whose [type] is the
    declared default ["hyperopt"]. *)
Theorem C5_unknown_type_ValidationError :
  (forall d, PyDict.lookup "type" d = None ->
     raises (OptimizerMarshmallowField_deserialize (VDict d)) ValidationError) /\
  (forall d ty, PyDict.lookup "type" d = Some ty ->
     Registry.contains ty scheduler_config_registry = Ok false ->
     raises (OptimizerMarshmallowField_deserialize (VDict d)) ValidationError) /\
  (forall keys d ty, PyDict.lookup "type" d = Some ty ->
     (forall name, ty = VStr name -> ~ In name keys) ->
     raises (SearchAlgorithmMarshmallowField_deserialize keys (VDict d)) ValidationError) /\
  (forall keys,
     SearchAlgorithmMarshmallowField_deserialize keys (VDict []) =
       Ok (mkObj "BaseSearchAlgorithmConfig" [("type", VStr "hyperopt")])).
Proof.
  split; [|split; [|split]].
  - intros d H. unfold OptimizerMarshmallowField_deserialize. rewrite H. simpl.
    eexists. reflexivity.
  - intros d ty H Hc. unfold OptimizerMarshmallowField_deserialize.
    rewrite H, Hc. simpl. eexists. reflexivity.
  - intros keys d ty H Hnot.
    unfold SearchAlgorithmMarshmallowField_deserialize. simpl isinstance_dict. cbv iota.
    assert (Hbad : exists e,
               deserialize_field (StringOptions keys (VStr "hyperopt") false) ty = Raise e).
    { destruct ty; simpl; try (eexists; reflexivity).
      destruct (existsb (String.eqb s) keys) eqn:E; [|eexists; reflexivity].
      exfalso. apply existsb_exists in E as [x [Hx Hs]].
      apply String.eqb_eq in Hs. subst x. exact (Hnot s eq_refl Hx). }
    destruct Hbad as [e He].
    destruct (Schema_load_violation (BaseSearchAlgorithmConfig keys) d "type"
                (StringOptions keys (VStr "hyperopt") false) ty e)
      as [msg Hmsg]; [simpl; auto | exact H | exact He |].
    rewrite Hmsg. simpl. eexists. reflexivity.
  - intros keys. reflexivity.
Qed.

Lemma C5_unknown_type_ValidationError_witness :
  raises (OptimizerMarshmallowField_deserialize (VDict [("type", VStr "bohb")]))
         ValidationError /\
  raises (SearchAlgorithmMarshmallowField_deserialize ["hyperopt"; "variant_generator"]
            (VDict [("type", VStr "fifo")]))
         ValidationError.
Proof.
  destruct C5_unknown_type_ValidationError as [_ [Hsched [Hsearch _]]].
  split.
  - apply (Hsched [("type", VStr "bohb")] (VStr "bohb")); reflexivity.
  - apply (Hsearch ["hyperopt"; "variant_generator"] [("type", VStr "fifo")] (VStr "fifo")).
    + reflexivity.
    + intros name [= <-]. simpl. intros [H|[H|[]]]; discriminate H.
Defined.

(** C5 (as stated) fails for the search-algorithm family: the empty mapping
    has no [type] key and is loaded as the default config object instead of
    failing with a [ValidationError]. *)
Lemma C5_search_algorithm_missing_type_returns_default :
  PyDict.lookup "type" ([] : list (string * value)) = None /\
  SearchAlgorithmMarshmallowField_deserialize ["hyperopt"; "variant_generator"] (VDict []) =
    Ok (mkObj "BaseSearchAlgorithmConfig" [("type", VStr "hyperopt")]) /\
  ~ raises (SearchAlgorithmMarshmallowField_deserialize ["hyperopt"; "variant_generator"]
              (VDict []))
           ValidationError.
Proof.
  repeat split. intros [msg H]. discriminate H.
Qed.

(** C10.  The search-algorithm field deserializer raises a
    [ValidationError] ("Field should be dict") for every value that is not a
    mapping, and null is such a value: it is not passed through. *)
Theorem C10_search_algorithm_non_mapping_ValidationError :
  forall (keys : list string) (v : value),
    isinstance_dict v = false ->
    SearchAlgorithmMarshmallowField_deserialize keys v =
      Raise (mkExn ValidationError [Lit "Field should be dict"]).
Proof.
  intros keys v H. unfold SearchAlgorithmMarshmallowField_deserialize.
  rewrite H. reflexivity.
Qed.

Lemma C10_search_algorithm_non_mapping_ValidationError_witness :
  SearchAlgorithmMarshmallowField_deserialize ["hyperopt"; "variant_generator"] VNone =
    Raise (mkExn ValidationError [Lit "Field should be dict"]).
Proof.
  apply (C10_search_algorithm_non_mapping_ValidationError
           ["hyperopt"; "variant_generator"] VNone).
  reflexivity.
Defined.

(** C6 (as amended).  [SchedulerDataclassField] fails at field-construction
    time with a [ValidationError] whenever its default is not a mapping,
    lacks a [type] key, has a hashable [type] that is not registered, or is
    not loaded by the class registered for its [type]; and when it does
    return a field, the default has already been loaded by that class, so no
    such error is left for deserialization time. *)
Theorem C6_malformed_default_fails_at_construction :
  forall (default : value) (description : string),
    (malformed_default default ->
     raises (SchedulerDataclassField default description) ValidationError) /\
    (forall f, SchedulerDataclassField default description = Ok f ->
       exists d name cls,
         default = VDict d /\
         PyDict.lookup "type" d = Some (VStr name) /\
         PyDict.lookup name scheduler_config_registry = Some (PyClass cls) /\
         Schema_load cls default = Ok (load_default f)).
Proof.
  intros default description. split.
  - intros Hbad. unfold SchedulerDataclassField.
    destruct Hbad as [default Hd | d Hty | d ty Hty Hc | d name cls Hty Hcls Hfail].
    + destruct default; try discriminate Hd; eexists; reflexivity.
    + rewrite Hty. eexists. reflexivity.
    + rewrite Hty, Hc. simpl. eexists. reflexivity.
    + assert (Hc : Registry.contains (VStr name) scheduler_config_registry = Ok true).
      { unfold Registry.contains, PyDict.contains.
        change (hashable (VStr name)) with true. cbv iota. now rewrite Hcls. }
      apply contains_registered in Hc as Hin.
      destruct (registered_entry name Hin) as [Hlow _].
      rewrite Hty, Hc. cbn [bind str_lower]. rewrite Hlow.
      unfold Registry.getitem. rewrite Hcls. cbn [bind py_Schema_load].
      destruct (Schema_load cls (VDict d)) eqn:Hl.
      * exfalso. apply Hfail. eexists. reflexivity.
      * simpl. eexists. reflexivity.
  - intros f Hok. unfold SchedulerDataclassField, invalid_default, raise in Hok.
    destruct default; try discriminate Hok.
    destruct (PyDict.lookup "type" items) as [ty|] eqn:Hty; [|discriminate Hok].
    destruct (Registry.contains ty scheduler_config_registry) as [[|]|e] eqn:Hc;
      cbn [bind] in Hok; try discriminate Hok.
    destruct (contains_true_inv ty Hc) as [name [-> Hin]].
    destruct (registered_entry name Hin) as [Hlow [cls [Hcls _]]].
    cbn [bind str_lower] in Hok. rewrite Hlow in Hok. unfold Registry.getitem in Hok.
    rewrite Hcls in Hok. cbn [bind py_Schema_load] in Hok.
    destruct (Schema_load cls (VDict items)) eqn:Hl;
      cbv [reraise_any bind py_Schema_dump raise] in Hok; [|discriminate Hok].
    injection Hok as <-.
    exists items, name, cls. simpl. auto.
Qed.

Lemma C6_malformed_default_fails_at_construction_witness :
  raises (SchedulerDataclassField
            (VDict [("type", VStr "async_hyperband"); ("max_t", VInt (-1))])
            "Hyperopt scheduler settings.")
         ValidationError.
Proof.
  apply (proj1 (C6_malformed_default_fails_at_construction
                  (VDict [("type", VStr "async_hyperband"); ("max_t", VInt (-1))])
                  "Hyperopt scheduler settings.")).
  apply (violates_variant _ "async_hyperband" AsyncHyperbandSchedulerConfig);
    [reflexivity | reflexivity |].
  intros [o H]. discriminate H.
Defined.

(** C6 (as stated) fails: a list is not a mapping, and the error raised for
    it at construction time is not of the [ConfigError] kind. *)
Lemma C6_malformed_default_is_not_a_ConfigError :
  malformed_default (VList []) /\
  ~ raises (SchedulerDataclassField (VList []) "Hyperopt scheduler settings.") ConfigError.
Proof.
  split.
  - apply not_a_mapping. reflexivity.
  - intros [msg H]. discriminate H.
Qed.

(** C8.  Loading a mapping for the ["pbt"] variant rejects a
    [quantile_fraction] outside the closed interval from 0 to 0.5 (0.6 for
    one) and accepts one inside it, the bounds 0 and 0.5 included; a mapping
    that omits the field gets the default 0.25. *)
Theorem C8_pbt_quantile_fraction_bounds :
  (forall q : Q, ~ (0 <= q <= 1 # 2)%Q ->
     raises (Schema_load PopulationBasedTrainingSchedulerConfig
               (pbt_with_quantile_fraction (VFloat q)))
            ValidationError) /\
  (forall q : Q, (0 <= q <= 1 # 2)%Q ->
     exists o,
       Schema_load PopulationBasedTrainingSchedulerConfig
         (pbt_with_quantile_fraction (VFloat q)) = Ok o /\
       getattr o "quantile_fraction" = Some (VFloat q)) /\
  raises (Schema_load PopulationBasedTrainingSchedulerConfig
            (pbt_with_quantile_fraction (VFloat (6 # 10))))
         ValidationError /\
  (exists o,
     Schema_load PopulationBasedTrainingSchedulerConfig
       (pbt_with_quantile_fraction (VInt 0)) = Ok o /\
     getattr o "quantile_fraction" = Some (VFloat 0)) /\
  (exists o,
     Schema_load PopulationBasedTrainingSchedulerConfig
       (pbt_with_quantile_fraction (VFloat (1 # 2))) = Ok o /\
     getattr o "quantile_fraction" = Some (VFloat (1 # 2))) /\
  (exists o,
     Schema_load PopulationBasedTrainingSchedulerConfig
       (VDict [("type", VStr "pbt")]) = Ok o /\
     getattr o "quantile_fraction" = Some (VFloat (1 # 4))).
Proof.
  repeat match goal with |- _ /\ _ => split end.
  - intros q Hout.
    apply (Schema_load_violation _ _ "quantile_fraction"
             (FloatRange (VFloat (1 # 4)) false 0 (1 # 2)) (VFloat q)
             (mkExn ValidationError [Lit "Must be within the declared range."])).
    + simpl. tauto.
    + reflexivity.
    + cbn [deserialize_field]. rewrite float_range_number.
      destruct (Qle_bool 0 q && Qle_bool q (1 # 2)) eqn:E; [|reflexivity].
      apply in_range_iff in E. contradiction.
  - intros q Hin. apply in_range_iff in Hin.
    unfold Schema_load, pbt_with_quantile_fraction.
    cbn -[deserialize_number]. rewrite float_range_number, Hin.
    eexists. split; reflexivity.
  - eexists. reflexivity.
  - eexists. split; reflexivity.
  - eexists. split; reflexivity.
  - eexists. split; reflexivity.
Qed.

Lemma C8_pbt_quantile_fraction_bounds_witness :
  raises (Schema_load PopulationBasedTrainingSchedulerConfig
            (pbt_with_quantile_fraction (VFloat (-1 # 100))))
         ValidationError /\
  exists o,
    Schema_load PopulationBasedTrainingSchedulerConfig
      (pbt_with_quantile_fraction (VFloat (1 # 3))) = Ok o /\
    getattr o "quantile_fraction" = Some (VFloat (1 # 3)).
Proof.
  destruct C8_pbt_quantile_fraction_bounds as [Hout [Hin _]].
  split.
  - apply (Hout (-1 # 100)%Q). intros [H _]. vm_compute in H. apply H. reflexivity.
  - apply (Hin (1 # 3)%Q). split; vm_compute; discriminate.
Defined.
End Discriminators.

(** ** The result cache *)

Section LruFacts.
Context {V : Type}.
Variable maxsize : nat.
Variable f : string -> V.

Lemma consistent_lookup (c : list (string * V)) k v :
  lru_cache.consistent f c -> PyDict.lookup k c = Some v -> v = f k.
Proof.
  intros Hc Hl. apply lookup_In in Hl.
  unfold lru_cache.consistent in Hc. rewrite Forall_forall in Hc.
  exact (Hc (k, v) Hl).
Qed.

Lemma consistent_remove (c : list (string * V)) k :
  lru_cache.consistent f c -> lru_cache.consistent f (lru_cache.remove k c).
Proof.
  unfold lru_cache.consistent.
  induction 1 as [|[k' v'] rest Hx Hrest IH]; simpl; [constructor|].
  destruct (String.eqb k k'); [assumption | constructor; assumption].
Qed.

Lemma consistent_firstn (c : list (string * V)) n :
  lru_cache.consistent f c -> lru_cache.consistent f (firstn n c).
Proof.
  unfold lru_cache.consistent. intros Hc. revert n.
  induction Hc as [|x rest Hx Hrest IH]; intros [|n]; simpl; constructor; auto.
Qed.

(** A call returns what the function computes and keeps the cache
    consistent. *)
Lemma call_consistent (c : list (string * V)) k :
  lru_cache.consistent f c ->
  fst (lru_cache.call maxsize f c k) = f k /\
  lru_cache.consistent f (snd (lru_cache.call maxsize f c k)).
Proof.
  intros Hc. unfold lru_cache.call.
  destruct (PyDict.lookup k c) as [v|] eqn:Hl; simpl.
  - pose proof (consistent_lookup c k v Hc Hl) as ->.
    split; [reflexivity|].
    constructor; [reflexivity | now apply consistent_remove].
  - split; [reflexivity|].
    apply (consistent_firstn ((k, f k) :: c)).
    constructor; [reflexivity | assumption].
Qed.

Lemma fold_consistent history (c : list (string * V)) :
  lru_cache.consistent f c ->
  lru_cache.consistent f
    (fold_left (fun c k => snd (lru_cache.call maxsize f c k)) history c).
Proof.
  revert c. induction history as [|k rest IH]; intros c Hc; simpl; [assumption|].
  apply IH. now apply call_consistent.
Qed.

Lemma after_consistent history :
  lru_cache.consistent f (lru_cache.after maxsize f history).
Proof. apply fold_consistent. constructor. Qed.

(** The cache is transparent: after any history of calls, a call returns
    what the function computes. *)
Lemma call_after history k :
  fst (lru_cache.call maxsize f (lru_cache.after maxsize f history) k) = f k.
Proof. apply call_consistent, after_consistent. Qed.

Lemma remove_length (c : list (string * V)) k v :
  PyDict.lookup k c = Some v -> S (length (lru_cache.remove k c)) = length c.
Proof.
  induction c as [|[k' v'] rest IH]; simpl; [discriminate|].
  destruct (String.eqb k k'); [reflexivity|].
  intros H. simpl. now rewrite IH.
Qed.

(** The cache never holds more than [maxsize] entries. *)
Lemma after_bounded history :
  (length (lru_cache.after maxsize f history) <= maxsize)%nat.
Proof.
  unfold lru_cache.after.
  assert (H : forall c : list (string * V), (length c <= maxsize)%nat ->
            (length (fold_left (fun c k => snd (lru_cache.call maxsize f c k)) history c)
             <= maxsize)%nat).
  { induction history as [|k rest IH]; intros c Hc; simpl; [assumption|].
    apply IH. unfold lru_cache.call.
    destruct (PyDict.lookup k c) as [v|] eqn:Hl; simpl snd.
    - simpl. rewrite (remove_length c k v Hl). assumption.
    - rewrite length_firstn. apply Nat.le_min_l. }
  apply H. simpl. lia.
Qed.
End LruFacts.

(** ** The top-level schema and the validator *)

Section TopLevelSchema.
Import constants validation.
Variables get_model_type_jsonschema get_input_feature_jsonschema
          get_output_feature_jsonschema get_trainer_jsonschema : value -> value.
Variables get_preprocessing_jsonschema get_hyperopt_jsonschema
          get_defaults_jsonschema get_combiner_jsonschema : value.

Let body :=
  get_schema_body get_model_type_jsonschema get_input_feature_jsonschema
    get_output_feature_jsonschema get_trainer_jsonschema get_preprocessing_jsonschema
    get_hyperopt_jsonschema get_defaults_jsonschema get_combiner_jsonschema.

(** What the body of [get_schema] builds for a string. *)
Lemma get_schema_body_shape (model_type : string) :
  exists items properties,
    body (VStr model_type) = VDict items /\
    PyDict.lookup "required" items =
      Some (VList [VStr INPUT_FEATURES; VStr OUTPUT_FEATURES]) /\
    PyDict.lookup "additionalProperties" items = Some (VBool false) /\
    PyDict.lookup "properties" items = Some (VDict properties) /\
    (PyDict.contains COMBINER properties = true <-> model_type = MODEL_ECD).
Proof.
  unfold body, get_schema_body. simpl eq_str.
  destruct (String.eqb model_type MODEL_ECD) eqn:E.
  - apply String.eqb_eq in E.
    eexists. eexists. split; [reflexivity|].
    repeat split; reflexivity || (intros; assumption).
  - apply String.eqb_neq in E.
    eexists. eexists. split; [reflexivity|].
    repeat split; try reflexivity.
    + intros H. discriminate H.
    + intros H. contradiction.
Qed.

(** C3.  For every model type string, and whatever calls were made before,
    the schema [get_schema] returns requires exactly [input_features] and
    [output_features], sets [additionalProperties] to false, and has a
    [combiner] property if and only if the model type is the ECD one. *)
Theorem C3_top_level_schema :
  forall (history : list string) (model_type : string),
    exists items properties,
      fst (get_schema get_model_type_jsonschema get_input_feature_jsonschema
             get_output_feature_jsonschema get_trainer_jsonschema
             get_preprocessing_jsonschema get_hyperopt_jsonschema
             get_defaults_jsonschema get_combiner_jsonschema
             (cache_after get_model_type_jsonschema get_input_feature_jsonschema
                get_output_feature_jsonschema get_trainer_jsonschema
                get_preprocessing_jsonschema get_hyperopt_jsonschema
                get_defaults_jsonschema get_combiner_jsonschema history)
             model_type) = VDict items /\
      PyDict.lookup "required" items =
        Some (VList [VStr INPUT_FEATURES; VStr OUTPUT_FEATURES]) /\
      PyDict.lookup "additionalProperties" items = Some (VBool false) /\
      PyDict.lookup "properties" items = Some (VDict properties) /\
      (PyDict.contains COMBINER properties = true <-> model_type = MODEL_ECD).
Proof.
  intros history model_type.
  destruct (get_schema_body_shape model_type) as (items & properties & Hbody & Hshape).
  exists items, properties. split; [|exact Hshape].
  rewrite <- Hbody.
  exact (call_after 2 (fun s => body (VStr s)) history model_type).
Qed.
End TopLevelSchema.

Section Validator.
Import validation.

(** C9.  The validator class of [get_validator] judges a value to be of
    type "array" exactly when it is a list or a tuple; the pair given as the
    tuple (1.2, 0.8) and as the list [1.2, 0.8] both pass a schema that
    requires an array. *)
Theorem C9_array_is_list_or_tuple :
  forall instance : value,
    jsonschema.is_type (jsonschema.TYPE_CHECKER get_validator) instance "array" =
      Ok (isinstance_list instance || isinstance_tuple instance) /\
    jsonschema.type_keyword get_validator (VStr "array")
      (VTuple [VFloat (6 # 5); VFloat (4 # 5)]) = Ok tt /\
    jsonschema.type_keyword get_validator (VStr "array")
      (VList [VFloat (6 # 5); VFloat (4 # 5)]) = Ok tt.
Proof.
  intros instance. repeat split.
Qed.

(** The Draft 7 dialect alone takes only the list for an array, and the
    redefinition leaves every other type as it was. *)
Lemma draft7_array_is_list (instance : value) :
  jsonschema.is_type (jsonschema.TYPE_CHECKER jsonschema.Draft7Validator) instance "array" =
    Ok (isinstance_list instance).
Proof. reflexivity. Qed.

Lemma get_validator_other_types (instance : value) (type : string) :
  type <> "array" ->
  jsonschema.is_type (jsonschema.TYPE_CHECKER get_validator) instance type =
  jsonschema.is_type (jsonschema.TYPE_CHECKER jsonschema.Draft7Validator) instance type.
Proof.
  intros Hne. unfold jsonschema.is_type, get_validator, jsonschema.extend,
    jsonschema.redefine. cbn [jsonschema.TYPE_CHECKER].
  rewrite lookup_set_other by exact Hne. reflexivity.
Qed.
End Validator.

(** ** The validation orchestrator *)

Section Orchestrator.
Import constants validation.
Variables get_model_type_jsonschema get_input_feature_jsonschema
          get_output_feature_jsonschema get_trainer_jsonschema : value -> value.
Variables get_preprocessing_jsonschema get_hyperopt_jsonschema
          get_defaults_jsonschema get_combiner_jsonschema : value.
Variable splitter : Type.
Variable upgrade_config_dict_to_latest_version : value -> result value.
Variable get_splitter : list (string * value) -> result splitter.
Variable splitter_validate : splitter -> value -> result unit.
Variable validate : value -> value -> jsonschema.validator_class -> result unit.

Let calls :=
  calls_of get_model_type_jsonschema get_input_feature_jsonschema
    get_output_feature_jsonschema get_trainer_jsonschema get_preprocessing_jsonschema
    get_hyperopt_jsonschema get_defaults_jsonschema get_combiner_jsonschema
    splitter upgrade_config_dict_to_latest_version get_splitter splitter_validate
    validate.

Ltac step r x :=
  let E := fresh "E" in
  let err := fresh "err" in
  destruct r as [x|err] eqn:E; cbn [app fst snd].

(** C2 (as amended).  [validate_config] first calls the version upgrader
    on the raw config, and the splitter's [validate] is invoked against the
    upgraded config the upgrader returned: no other config is passed to it,
    and it is passed whenever the splitter has been built. *)
Theorem C2_splitter_validates_upgraded_config :
  forall (config updated_config : value),
    upgrade_config_dict_to_latest_version config = Ok updated_config ->
    (exists rest, calls config = CallUpgrade config :: rest) /\
    (forall c, In (CallSplitterValidate c) (calls config) -> c = updated_config) /\
    (forall kwargs s,
       In (CallGetSplitter kwargs) (calls config) ->
       get_splitter kwargs = Ok s ->
       In (CallSplitterValidate updated_config) (calls config)).
Proof.
  intros config updated Hup.
  unfold calls, calls_of, run, validate_config, validate_upgraded_config,
    io_bind, io_lift, emit, with_lock.
  cbn [app]. rewrite Hup.
  step (py_get updated MODEL_TYPE (VStr MODEL_ECD)) model_type;
    [|repeat split; [eexists; reflexivity | simpl; intuition discriminate
                     | simpl; intuition discriminate]].
  step (py_get updated PREPROCESSING (VDict [])) preprocessing;
    [|repeat split; [eexists; reflexivity | simpl; intuition discriminate
                     | simpl; intuition discriminate]].
  step (py_get preprocessing SPLIT (VDict [])) split_options;
    [|repeat split; [eexists; reflexivity | simpl; intuition discriminate
                     | simpl; intuition discriminate]].
  step (keyword_arguments split_options) kwargs;
    [|repeat split; [eexists; reflexivity | simpl; intuition discriminate
                     | simpl; intuition discriminate]].
  step (get_splitter kwargs) s.
  2:{ repeat split; [eexists; reflexivity | simpl; intuition discriminate |].
      simpl. intros kwargs' s [H|[H|[]]]; [discriminate H|].
      injection H as <-. congruence. }
  step (splitter_validate s updated) u.
  2:{ repeat split; [eexists; reflexivity | |]; simpl.
      - intros c [H|[H|[H|[]]]]; congruence.
      - intros; tauto. }
  destruct (hashable model_type); cbn [app fst snd].
  - repeat split; [eexists; reflexivity | |]; simpl.
    + intros c H; repeat (destruct H as [H|H]; [congruence|]); contradiction.
    + intros; tauto.
  - repeat split; [eexists; reflexivity | |]; simpl.
    + intros c H; repeat (destruct H as [H|H]; [congruence|]); contradiction.
    + intros; tauto.
Qed.
End Orchestrator.

(** C2 (as stated) fails: with an upgrader that stamps the configuration
    with the schema version, the splitter's [validate] receives the
    upgraded config, which differs from the raw config, and never the raw
    one. *)
Lemma C2_splitter_validate_receives_upgraded_config :
  validation.calls_of_example =
    [ validation.CallUpgrade validation.raw_config_example;
      validation.CallGetSplitter [];
      validation.CallSplitterValidate validation.upgraded_config_example;
      validation.LockAcquire;
      validation.CallValidate validation.upgraded_config_example
        (validation.get_schema_body
           (fun _ => VDict []) (fun _ => VDict []) (fun _ => VDict []) (fun _ => VDict [])
           (VDict []) (VDict []) (VDict []) (VDict []) (VStr constants.MODEL_ECD));
      validation.LockRelease ] /\
  In (validation.CallSplitterValidate validation.upgraded_config_example)
     validation.calls_of_example /\
  ~ In (validation.CallSplitterValidate validation.raw_config_example)
       validation.calls_of_example /\
  validation.upgraded_config_example <> validation.raw_config_example.
Proof.
  split; [reflexivity|].
  split; [simpl; tauto|].
  split.
  - simpl. intros H.
    repeat (destruct H as [H|H]; [discriminate H|]). contradiction.
  - discriminate.
Qed.

Lemma C2_splitter_validates_upgraded_config_witness :
  In (validation.CallSplitterValidate validation.upgraded_config_example)
     validation.calls_of_example.
Proof.
  apply (proj2 (proj2
    (C2_splitter_validates_upgraded_config
       (fun _ => VDict []) (fun _ => VDict []) (fun _ => VDict []) (fun _ => VDict [])
       (VDict []) (VDict []) (VDict []) (VDict [])
       unit validation.stamping_upgrader (fun _ => Ok tt) (fun _ _ => Ok tt)
       (fun _ _ _ => Ok tt)
       validation.raw_config_example validation.upgraded_config_example eq_refl))
    [] tt).
  - simpl. tauto.
  - reflexivity.
Defined.

(** * Further properties of the three modules *)

(** ** The paths of the orchestrator *)

Section OrchestratorPaths.
Import constants validation.
Variables get_model_type_jsonschema get_input_feature_jsonschema
          get_output_feature_jsonschema get_trainer_jsonschema : value -> value.
Variables get_preprocessing_jsonschema get_hyperopt_jsonschema
          get_defaults_jsonschema get_combiner_jsonschema : value.
Variable splitter : Type.
Variable upgrade_config_dict_to_latest_version : value -> result value.
Variable get_splitter : list (string * value) -> result splitter.
Variable splitter_validate : splitter -> value -> result unit.
Variable validate : value -> value -> jsonschema.validator_class -> result unit.

Let schema_for :=
  get_schema_body get_model_type_jsonschema get_input_feature_jsonschema
    get_output_feature_jsonschema get_trainer_jsonschema get_preprocessing_jsonschema
    get_hyperopt_jsonschema get_defaults_jsonschema get_combiner_jsonschema.

Let outcome (config : value) : result unit * list event :=
  run (validate_config get_model_type_jsonschema get_input_feature_jsonschema
         get_output_feature_jsonschema get_trainer_jsonschema
         get_preprocessing_jsonschema get_hyperopt_jsonschema
         get_defaults_jsonschema get_combiner_jsonschema
         splitter upgrade_config_dict_to_latest_version get_splitter
         splitter_validate validate config).

(** Every run of [validate_config] follows one of eight paths, told apart
    by the first step that fails. *)
Lemma validate_config_paths (config : value) :
  (exists e, upgrade_config_dict_to_latest_version config = Raise e /\
             outcome config = (Raise e, [CallUpgrade config])) \/
  exists u, upgrade_config_dict_to_latest_version config = Ok u /\
  ((exists e, py_get u MODEL_TYPE (VStr MODEL_ECD) = Raise e /\
              outcome config = (Raise e, [CallUpgrade config])) \/
   exists mt, py_get u MODEL_TYPE (VStr MODEL_ECD) = Ok mt /\
   ((exists e, splitter_kwargs u = Raise e /\
               outcome config = (Raise e, [CallUpgrade config])) \/
    exists kwargs, splitter_kwargs u = Ok kwargs /\
    ((exists e, get_splitter kwargs = Raise e /\
                outcome config =
                  (Raise e, [CallUpgrade config; CallGetSplitter kwargs])) \/
     exists s, get_splitter kwargs = Ok s /\
     ((exists e, splitter_validate s u = Raise e /\
                 outcome config =
                   (Raise e, [CallUpgrade config; CallGetSplitter kwargs;
                              CallSplitterValidate u])) \/
      splitter_validate s u = Ok tt /\
      ((hashable mt = false /\
        outcome config =
          (raise TypeError [Lit "unhashable type"],
           [CallUpgrade config; CallGetSplitter kwargs; CallSplitterValidate u;
            LockAcquire; LockRelease])) \/
       (hashable mt = true /\
        outcome config =
          (validate u (schema_for mt) get_validator,
           [CallUpgrade config; CallGetSplitter kwargs; CallSplitterValidate u;
            LockAcquire; CallValidate u (schema_for mt); LockRelease]))))))).
Proof.
  unfold outcome, schema_for, run, validate_config, validate_upgraded_config,
    splitter_kwargs, io_bind, io_lift, emit, with_lock.
  cbn [app].
  destruct (upgrade_config_dict_to_latest_version config) as [u|e];
    [right; exists u; split; [reflexivity|] | left; exists e; split; reflexivity].
  destruct (py_get u MODEL_TYPE (VStr MODEL_ECD)) as [mt|e];
    [right; exists mt; split; [reflexivity|] | left; exists e; split; reflexivity].
  destruct (py_get u PREPROCESSING (VDict [])) as [pre|e]; cbn [bind];
    [| left; exists e; split; reflexivity].
  destruct (py_get pre SPLIT (VDict [])) as [sp|e]; cbn [bind];
    [| left; exists e; split; reflexivity].
  destruct (keyword_arguments sp) as [kwargs|e];
    [right; exists kwargs; split; [reflexivity|] | left; exists e; split; reflexivity].
  cbn [app].
  destruct (get_splitter kwargs) as [s|e];
    [right; exists s; split; [reflexivity|] | left; exists e; split; reflexivity].
  cbn [app].
  destruct (splitter_validate s u) as [[]|e];
    [right; split; [reflexivity|] | left; exists e; split; reflexivity].
  cbn [app].
  destruct (hashable mt); [right | left]; split; reflexivity.
Qed.

Ltac on_each_path config :=
  destruct (validate_config_paths config)
    as [(e & Hup & Hout)
       |(u & Hup &
         [(e & Hmt & Hout)
         |(mt & Hmt &
           [(e & Hkw & Hout)
           |(kwargs & Hkw &
             [(e & Hgs & Hout)
             |(s & Hgs &
               [(e & Hsv & Hout)
               |(Hsv & [(Hhash & Hout)|(Hhash & Hout)])])])])])].

(** X1.  If the version upgrader raises, [validate_config] raises that same
    error and has called nothing but the upgrader. *)
Theorem X1_upgrader_error_propagates :
  forall (config : value) (e : exn),
    upgrade_config_dict_to_latest_version config = Raise e ->
    outcome config = (Raise e, [CallUpgrade config]).
Proof.
  intros config err Herr.
  on_each_path config; rewrite Hout; congruence.
Qed.

(** X2.  The validation lock is released on every exit path: the calls of
    a run either never touch the lock, or end with its acquisition, at most
    one structural validation and its release, everything before being done
    without the lock. *)
Theorem X2_lock_released_on_every_path :
  forall config : value,
    forallb outside_lock (snd (outcome config)) = true \/
    exists before inside,
      snd (outcome config) = before ++ [LockAcquire] ++ inside ++ [LockRelease] /\
      forallb outside_lock before = true /\
      (inside = [] \/ exists instance schema, inside = [CallValidate instance schema]).
Proof.
  intros config.
  on_each_path config; rewrite Hout; cbn [snd]; try (left; reflexivity); right.
  - exists [CallUpgrade config; CallGetSplitter kwargs; CallSplitterValidate u], [].
    repeat split. now left.
  - exists [CallUpgrade config; CallGetSplitter kwargs; CallSplitterValidate u],
           [CallValidate u (schema_for mt)].
    repeat split. right. eauto.
Qed.

(** X3.  A structural validation is attempted only on the upgraded config,
    against the schema built for its [model_type] ([ecd] when the key is
    absent), and only after the splitter was built from the split options
    and its [validate] accepted the upgraded config. *)
Theorem X3_structural_validation_comes_last :
  forall (config instance schema : value),
    In (CallValidate instance schema) (snd (outcome config)) ->
    upgrade_config_dict_to_latest_version config = Ok instance /\
    exists model_type kwargs s,
      py_get instance MODEL_TYPE (VStr MODEL_ECD) = Ok model_type /\
      schema = schema_for model_type /\
      splitter_kwargs instance = Ok kwargs /\
      get_splitter kwargs = Ok s /\
      splitter_validate s instance = Ok tt.
Proof.
  intros config instance schema Hin.
  on_each_path config; rewrite Hout in Hin; cbn [snd] in Hin; simpl in Hin;
    repeat (destruct Hin as [Hin|Hin]; [try discriminate Hin|]); try contradiction.
  injection Hin as <- <-.
  split; [assumption|]. exists mt, kwargs, s. auto.
Qed.

(** X4.  When the upgrader, the splitter factory and the splitter's
    [validate] all succeed, the outcome of [validate_config] is the outcome
    of the structural validation, unchanged. *)
Theorem X4_outcome_is_structural_validation :
  forall (config u model_type : value) kwargs s,
    upgrade_config_dict_to_latest_version config = Ok u ->
    py_get u MODEL_TYPE (VStr MODEL_ECD) = Ok model_type ->
    hashable model_type = true ->
    splitter_kwargs u = Ok kwargs ->
    get_splitter kwargs = Ok s ->
    splitter_validate s u = Ok tt ->
    fst (outcome config) = validate u (schema_for model_type) get_validator.
Proof.
  intros config u0 mt0 kwargs0 s0 H1 H2 H3 H4 H5 H6.
  on_each_path config; rewrite Hout; cbn [fst]; congruence.
Qed.

(** X5.  An error of the splitter's [validate] is raised as it is, and the
    lock is never acquired nor the structural validation attempted. *)
Theorem X5_splitter_error_propagates :
  forall (config u : value) kwargs s e,
    upgrade_config_dict_to_latest_version config = Ok u ->
    splitter_kwargs u = Ok kwargs ->
    get_splitter kwargs = Ok s ->
    splitter_validate s u = Raise e ->
    outcome config =
      (Raise e, [CallUpgrade config; CallGetSplitter kwargs; CallSplitterValidate u]).
Proof.
  intros config u0 kwargs0 s0 e0 H1 H4 H5 H6.
  assert (Hdict : exists mt, py_get u0 MODEL_TYPE (VStr MODEL_ECD) = Ok mt).
  { unfold splitter_kwargs in H4. destruct u0; try discriminate H4.
    eexists. reflexivity. }
  destruct Hdict as [mt0 H2].
  on_each_path config; rewrite Hout; try congruence;
    rewrite H1 in Hup; injection Hup as <-;
    rewrite H4 in Hkw; injection Hkw as <-;
    rewrite H5 in Hgs; injection Hgs as <-; congruence.
Qed.

(** X6.  The splitter factory receives exactly the entries of the [split]
    mapping under [preprocessing] of the upgraded config, and no keyword
    argument at all when [preprocessing] or [split] is absent. *)
Theorem X6_splitter_factory_arguments :
  forall (config : value) d kwargs,
    upgrade_config_dict_to_latest_version config = Ok (VDict d) ->
    In (CallGetSplitter kwargs) (snd (outcome config)) ->
    kwargs =
      match PyDict.lookup PREPROCESSING d with
      | Some (VDict preprocessing) =>
          match PyDict.lookup SPLIT preprocessing with
          | Some (VDict split) => split
          | _ => []
          end
      | _ => []
      end.
Proof.
  intros config d kw Hd Hin.
  assert (Hk : forall k, splitter_kwargs (VDict d) = Ok k ->
                 k = match PyDict.lookup PREPROCESSING d with
                     | Some (VDict preprocessing) =>
                         match PyDict.lookup SPLIT preprocessing with
                         | Some (VDict split) => split
                         | _ => []
                         end
                     | _ => []
                     end).
  { unfold splitter_kwargs, py_get. cbn [bind].
    destruct (PyDict.lookup PREPROCESSING d) as [pre|]; cbn [bind].
    - destruct pre; cbn [bind]; try discriminate.
      destruct (PyDict.lookup SPLIT items) as [sp|]; cbn [keyword_arguments].
      + destruct sp; try discriminate. now intros k [= <-].
      + now intros k [= <-].
    - cbn. now intros k [= <-]. }
  on_each_path config; rewrite Hout in Hin; cbn [snd] in Hin; simpl in Hin;
    repeat (destruct Hin as [Hin|Hin]; [try discriminate Hin|]); try contradiction;
    injection Hin as <-; rewrite Hd in Hup; injection Hup as <-; now apply Hk.
Qed.
End OrchestratorPaths.

(** ** The schema cache *)

Section LruOrder.
Context {V : Type}.
Variable n : nat.
Variable f : string -> V.
Let maxsize := S n.

Lemma keys_remove_incl (c : list (string * V)) k x :
  In x (PyDict.keys (lru_cache.remove k c)) -> In x (PyDict.keys c).
Proof.
  induction c as [|[k' v'] rest IH]; simpl; [tauto|].
  destruct (String.eqb k k'); simpl; tauto.
Qed.

Lemma NoDup_remove (c : list (string * V)) k :
  NoDup (PyDict.keys c) ->
  NoDup (PyDict.keys (lru_cache.remove k c)) /\
  ~ In k (PyDict.keys (lru_cache.remove k c)).
Proof.
  induction c as [|[k' v'] rest IH]; simpl; intros Hnd.
  - split; [constructor | tauto].
  - inversion Hnd as [|? ? Hnotin Hrest]; subst.
    destruct (String.eqb k k') eqn:E.
    + apply String.eqb_eq in E. subst k'. split; assumption.
    + apply String.eqb_neq in E. destruct (IH Hrest) as [IH1 IH2].
      simpl. split.
      * constructor; [|assumption].
        intros Hin. apply Hnotin. now apply keys_remove_incl in Hin.
      * intros [H|H]; [congruence | contradiction].
Qed.

Lemma In_firstn_In {A} (l : list A) m x : In x (firstn m l) -> In x l.
Proof.
  revert m. induction l as [|y ys IH]; intros [|m]; simpl; try tauto.
  intros [H|H]; [now left | right; eauto].
Qed.

Lemma NoDup_keys_firstn (c : list (string * V)) m :
  NoDup (PyDict.keys c) -> NoDup (PyDict.keys (firstn m c)).
Proof.
  unfold PyDict.keys. rewrite <- firstn_map.
  revert m. induction (map fst c) as [|x xs IH]; intros m Hnd.
  - rewrite firstn_nil. constructor.
  - destruct m; simpl; [constructor|].
    inversion Hnd; subst. constructor; [|auto].
    intros Hin. apply In_firstn_In in Hin. contradiction.
Qed.

Lemma lookup_None_notin (c : list (string * V)) k :
  PyDict.lookup k c = None -> ~ In k (PyDict.keys c).
Proof.
  intros Hl Hin. apply contains_In in Hin. unfold PyDict.contains in Hin.
  now rewrite Hl in Hin.
Qed.

(** The keys of the cache stay distinct. *)
Lemma call_NoDup (c : list (string * V)) k :
  NoDup (PyDict.keys c) ->
  NoDup (PyDict.keys (snd (lru_cache.call maxsize f c k))).
Proof.
  intros Hnd. unfold lru_cache.call.
  destruct (PyDict.lookup k c) as [v|] eqn:Hl; cbn [snd].
  - destruct (NoDup_remove c k Hnd). simpl. now constructor.
  - apply NoDup_keys_firstn. simpl. constructor; [|assumption].
    now apply lookup_None_notin.
Qed.

Lemma after_NoDup history :
  NoDup (PyDict.keys (lru_cache.after maxsize f history)).
Proof.
  unfold lru_cache.after.
  assert (H : forall c : list (string * V), NoDup (PyDict.keys c) ->
            NoDup (PyDict.keys
                     (fold_left (fun c k => snd (lru_cache.call maxsize f c k)) history c))).
  { induction history as [|k rest IH]; intros c Hc; simpl; [assumption|].
    apply IH. now apply call_NoDup. }
  apply H. constructor.
Qed.



End LruOrder.

(** Two calls in a row with different keys leave exactly those two keys,
    the later one first, in a cache of size two. *)
Lemma call_two_keys {V : Type} (f : string -> V) (c : list (string * V)) a b :
  NoDup (PyDict.keys c) -> (length c <= 2)%nat -> a <> b ->
  PyDict.keys (snd (lru_cache.call 2 f (snd (lru_cache.call 2 f c a)) b)) = [b; a].
Proof.
  intros Hnd Hlen Hab.
  assert (H1 : exists v r, snd (lru_cache.call 2 f c a) = (a, v) :: r /\
                           (length r <= 1)%nat /\ NoDup (a :: PyDict.keys r)).
  { pose proof (call_NoDup 1 f c a Hnd) as Hnd1.
    unfold lru_cache.call in *.
    destruct (PyDict.lookup a c) as [v|] eqn:Hl; cbn [snd] in *.
    - exists v, (lru_cache.remove a c). repeat split; [|exact Hnd1].
      pose proof (remove_length c a v Hl). lia.
    - cbn [firstn] in *.
      exists (f a), (firstn 1 c). repeat split; [|exact Hnd1].
      rewrite length_firstn. lia. }
  destruct H1 as (v & r & -> & Hr & Hnd1).
  apply String.eqb_neq in Hab.
  unfold lru_cache.call. cbn [PyDict.lookup].
  rewrite String.eqb_sym, Hab.
  destruct r as [|[k w] [|x r']]; [| |simpl in Hr; lia].
  - reflexivity.
  - cbn [PyDict.lookup].
    destruct (String.eqb b k) eqn:E; cbn [snd].
    + apply String.eqb_eq in E. subst k.
      cbn [lru_cache.remove]. rewrite String.eqb_sym, Hab.
      cbn [lru_cache.remove]. rewrite String.eqb_refl. reflexivity.
    + reflexivity.
Qed.


Section SchemaCache.
Import constants validation.
Variables get_model_type_jsonschema get_input_feature_jsonschema
          get_output_feature_jsonschema get_trainer_jsonschema : value -> value.
Variables get_preprocessing_jsonschema get_hyperopt_jsonschema
          get_defaults_jsonschema get_combiner_jsonschema : value.

Let schema_for :=
  get_schema_body get_model_type_jsonschema get_input_feature_jsonschema
    get_output_feature_jsonschema get_trainer_jsonschema get_preprocessing_jsonschema
    get_hyperopt_jsonschema get_defaults_jsonschema get_combiner_jsonschema.


Let cache_of :=
  cache_after get_model_type_jsonschema get_input_feature_jsonschema
    get_output_feature_jsonschema get_trainer_jsonschema get_preprocessing_jsonschema
    get_hyperopt_jsonschema get_defaults_jsonschema get_combiner_jsonschema.


(** X8.  After calls for two different model types in a row, the cache
    holds exactly those two, the later one first: any model type used
    before them has been evicted. *)
Theorem X8_schema_cache_keeps_two_most_recent :
  forall (history : list string) (a b : string),
    a <> b ->
    PyDict.keys (cache_of (history ++ [a; b])) = [b; a].
Proof.
  intros history a b Hab.
  unfold cache_of, cache_after, lru_cache.after.
  rewrite fold_left_app. cbn [fold_left].
  apply call_two_keys; [| |exact Hab].
  - apply (after_NoDup 1).
  - apply after_bounded.
Qed.


(** X10.  For any [model_type] value the schema is an object schema whose
    properties are the nine sections, in the order of the source, each with
    the schema its builder returns, followed by [combiner] exactly when the
    model type is the ECD one. *)
Theorem X10_schema_properties :
  forall model_type : value,
    exists items properties,
      schema_for model_type = VDict items /\
      PyDict.lookup "type" items = Some (VStr "object") /\
      PyDict.lookup "properties" items = Some (VDict properties) /\
      properties =
        [ (MODEL_TYPE, get_model_type_jsonschema model_type);
          (INPUT_FEATURES, get_input_feature_jsonschema model_type);
          (OUTPUT_FEATURES, get_output_feature_jsonschema model_type);
          (TRAINER, get_trainer_jsonschema model_type);
          (PREPROCESSING, get_preprocessing_jsonschema);
          (HYPEROPT, get_hyperopt_jsonschema);
          (DEFAULTS, get_defaults_jsonschema);
          (LUDWIG_VERSION, get_ludwig_version_jsonschema);
          (BACKEND, get_backend_jsonschema) ]
        ++ (if eq_str model_type MODEL_ECD
            then [(COMBINER, get_combiner_jsonschema)] else []).
Proof.
  intros model_type. unfold schema_for, get_schema_body.
  destruct (eq_str model_type MODEL_ECD);
    eexists; eexists; repeat split; reflexivity.
Qed.
End SchemaCache.

Lemma X8_schema_cache_keeps_two_most_recent_witness :
  PyDict.keys
    (validation.cache_after (fun _ => VDict []) (fun _ => VDict []) (fun _ => VDict [])
       (fun _ => VDict []) (VDict []) (VDict []) (VDict []) (VDict [])
       (["ecd"; "gbm"] ++ ["llm"; "ecd"])) = ["ecd"; "llm"].
Proof.
  apply (X8_schema_cache_keeps_two_most_recent
           (fun _ => VDict []) (fun _ => VDict []) (fun _ => VDict []) (fun _ => VDict [])
           (VDict []) (VDict []) (VDict []) (VDict []) ["ecd"; "gbm"] "llm" "ecd").
  discriminate.
Defined.

Section ValidatorTypes.
Import validation.

(** X11.  The validator class of [get_validator] differs from the Draft 7
    dialect on the type "array" only: every other type name, a name the
    dialect does not know included, is judged as Draft 7 judges it. *)
Theorem X11_validator_changes_array_only :
  forall (instance : value) (type : string),
    jsonschema.is_type (jsonschema.TYPE_CHECKER get_validator) instance type =
      if String.eqb type "array"
      then Ok (isinstance_list instance || isinstance_tuple instance)
      else jsonschema.is_type (jsonschema.TYPE_CHECKER jsonschema.Draft7Validator)
             instance type.
Proof.
  intros instance type.
  destruct (String.eqb type "array") eqn:E.
  - apply String.eqb_eq in E. subst type. reflexivity.
  - apply String.eqb_neq in E.
    unfold jsonschema.is_type, get_validator, jsonschema.extend, jsonschema.redefine.
    cbn [jsonschema.TYPE_CHECKER].
    rewrite lookup_set_other by exact E. reflexivity.
Qed.
End ValidatorTypes.

(** ** Runs of the orchestrator on examples *)

Section OrchestratorExamples.
Import constants validation.

Lemma X1_upgrader_error_propagates_witness :
  example_outcome failing_upgrader (fun _ _ => Ok tt) raw_config_example =
    (Raise (mkExn ValidationError [Lit "unsupported ludwig_version"]),
     [CallUpgrade raw_config_example]).
Proof.
  apply (X1_upgrader_error_propagates
           (fun _ => VDict []) (fun _ => VDict []) (fun _ => VDict []) (fun _ => VDict [])
           (VDict []) (VDict []) (VDict []) (VDict [])
           unit failing_upgrader (fun _ => Ok tt) (fun _ _ => Ok tt) (fun _ _ _ => Ok tt)
           raw_config_example).
  reflexivity.
Defined.

Lemma X3_structural_validation_comes_last_witness :
  stamping_upgrader raw_config_example = Ok upgraded_config_example.
Proof.
  apply (X3_structural_validation_comes_last
           (fun _ => VDict []) (fun _ => VDict []) (fun _ => VDict []) (fun _ => VDict [])
           (VDict []) (VDict []) (VDict []) (VDict [])
           unit stamping_upgrader (fun _ => Ok tt) (fun _ _ => Ok tt) (fun _ _ _ => Ok tt)
           raw_config_example upgraded_config_example
           (get_schema_body
              (fun _ => VDict []) (fun _ => VDict []) (fun _ => VDict []) (fun _ => VDict [])
              (VDict []) (VDict []) (VDict []) (VDict []) (VStr MODEL_ECD))).
  simpl. tauto.
Defined.

Lemma X4_outcome_is_structural_validation_witness :
  fst (example_outcome stamping_upgrader (fun _ _ => Ok tt) raw_config_example) = Ok tt.
Proof.
  apply (X4_outcome_is_structural_validation
           (fun _ => VDict []) (fun _ => VDict []) (fun _ => VDict []) (fun _ => VDict [])
           (VDict []) (VDict []) (VDict []) (VDict [])
           unit stamping_upgrader (fun _ => Ok tt) (fun _ _ => Ok tt) (fun _ _ _ => Ok tt)
           raw_config_example upgraded_config_example (VStr MODEL_ECD) [] tt);
    reflexivity.
Defined.

Lemma X5_splitter_error_propagates_witness :
  example_outcome stamping_upgrader rejecting_splitter raw_config_example =
    (Raise (mkExn ValidationError [Lit "split column is not a feature"]),
     [CallUpgrade raw_config_example; CallGetSplitter [];
      CallSplitterValidate upgraded_config_example]).
Proof.
  apply (X5_splitter_error_propagates
           (fun _ => VDict []) (fun _ => VDict []) (fun _ => VDict []) (fun _ => VDict [])
           (VDict []) (VDict []) (VDict []) (VDict [])
           unit stamping_upgrader (fun _ => Ok tt) rejecting_splitter (fun _ _ _ => Ok tt)
           raw_config_example upgraded_config_example [] tt);
    reflexivity.
Defined.

Lemma X6_splitter_factory_arguments_witness :
  In (CallGetSplitter [("type", VStr "fixed")])
     (snd (example_outcome stamping_upgrader (fun _ _ => Ok tt) split_config_example)) /\
  [("type", VStr "fixed")] =
    match PyDict.lookup PREPROCESSING upgraded_split_config_example with
    | Some (VDict preprocessing) =>
        match PyDict.lookup SPLIT preprocessing with
        | Some (VDict split) => split
        | _ => []
        end
    | _ => []
    end.
Proof.
  split; [simpl; tauto|].
  apply (X6_splitter_factory_arguments
           (fun _ => VDict []) (fun _ => VDict []) (fun _ => VDict []) (fun _ => VDict [])
           (VDict []) (VDict []) (VDict []) (VDict [])
           unit stamping_upgrader (fun _ => Ok tt) (fun _ _ => Ok tt) (fun _ _ _ => Ok tt)
           split_config_example upgraded_split_config_example [("type", VStr "fixed")]).
  - reflexivity.
  - simpl. tauto.
Defined.
End OrchestratorExamples.

(** ** The scheduler field, further *)

Section SchedulerFieldFurther.
Import schema_utils scheduler.

Lemma contains_raise_inv ty e :
  Registry.contains ty scheduler_config_registry = Raise e ->
  hashable ty = false /\ exn_kind_of e = TypeError.
Proof.
  unfold Registry.contains.
  destruct (hashable ty).
  - destruct ty; discriminate.
  - intros [= <-]. split; reflexivity.
Qed.

Lemma contains_false_inv ty :
  Registry.contains ty scheduler_config_registry = Ok false ->
  hashable ty = true /\
  forall name, ty = VStr name -> ~ In name (Registry.keys scheduler_config_registry).
Proof.
  intros H. split.
  - unfold Registry.contains in H. destruct (hashable ty); [reflexivity | discriminate].
  - intros name -> Hin. apply contains_registered in Hin. congruence.
Qed.

(** What [_deserialize] does with a mapping, by the answer of the registry
    about its [type]. *)
Lemma deserialize_mapping_cases d :
  (PyDict.lookup "type" d = None /\
   raises (OptimizerMarshmallowField_deserialize (VDict d)) ValidationError) \/
  exists ty, PyDict.lookup "type" d = Some ty /\
    ((Registry.contains ty scheduler_config_registry = Ok false /\
      raises (OptimizerMarshmallowField_deserialize (VDict d)) ValidationError) \/
     (hashable ty = false /\
      raises (OptimizerMarshmallowField_deserialize (VDict d)) TypeError) \/
     (exists name, ty = VStr name /\
        In name (Registry.keys scheduler_config_registry) /\
        raises (OptimizerMarshmallowField_deserialize (VDict d)) TypeError)).
Proof.
  unfold OptimizerMarshmallowField_deserialize.
  destruct (PyDict.lookup "type" d) as [ty|] eqn:Hty.
  - right. exists ty. split; [reflexivity|].
    destruct (Registry.contains ty scheduler_config_registry) as [[|]|e] eqn:Hc.
    + right. right. destruct (contains_true_inv ty Hc) as [name [-> Hin]].
      exists name. repeat split; [assumption|].
      destruct (registered_entry name Hin) as [Hlow [cls [Hcls _]]].
      cbn [bind str_lower]. rewrite Hlow. unfold Registry.getitem. rewrite Hcls.
      eexists. reflexivity.
    + left. split; [reflexivity|]. eexists. reflexivity.
    + right. left. destruct (contains_raise_inv ty e Hc) as [Hh Hk].
      split; [assumption|]. destruct e as [k msg]. simpl in Hk. subst k.
      eexists. reflexivity.
  - left. split; [reflexivity|]. eexists. reflexivity.
Qed.

(** X12.  [OptimizerMarshmallowField._deserialize] never returns a config
    object: it returns [None] for the null value and for it only, and every
    other value makes it raise a [ValidationError] or a [TypeError]. *)
Theorem X12_scheduler_deserialize_never_returns_a_config :
  forall v : value,
    (v = VNone /\ OptimizerMarshmallowField_deserialize v = Ok None) \/
    (v <> VNone /\
     (raises (OptimizerMarshmallowField_deserialize v) ValidationError \/
      raises (OptimizerMarshmallowField_deserialize v) TypeError)).
Proof.
  intros v.
  destruct v; try (right; split; [discriminate | left; eexists; reflexivity]).
  - left. split; reflexivity.
  - right. split; [discriminate|].
    destruct (deserialize_mapping_cases items)
      as [[_ H] | (ty & _ & [[_ H] | [[_ H] | (name & _ & _ & H)]])]; auto.
Qed.

(** X13.  For a mapping, [_deserialize] raises a [TypeError] exactly when
    the [type] value is unhashable or is a registered name, and a
    [ValidationError] exactly when the [type] key is absent or its value is
    hashable and not registered. *)
Theorem X13_scheduler_deserialize_error_kinds :
  forall d : list (string * value),
    (raises (OptimizerMarshmallowField_deserialize (VDict d)) TypeError <->
     exists ty, PyDict.lookup "type" d = Some ty /\
       (hashable ty = false \/
        exists name, ty = VStr name /\
                     In name (Registry.keys scheduler_config_registry))) /\
    (raises (OptimizerMarshmallowField_deserialize (VDict d)) ValidationError <->
     PyDict.lookup "type" d = None \/
     exists ty, PyDict.lookup "type" d = Some ty /\
                Registry.contains ty scheduler_config_registry = Ok false).
Proof.
  intros d.
  assert (Hexcl : forall r : result (option config_obj),
            raises r TypeError -> raises r ValidationError -> False).
  { intros r [m1 H1] [m2 H2]. congruence. }
  destruct (deserialize_mapping_cases d)
    as [[Hnone H] | (ty & Hty & [[Hc H] | [[Hh H] | (name & -> & Hin & H)]])].
  - split; split.
    + intros HT. exfalso. eauto.
    + intros (ty & Hty & _). congruence.
    + auto.
    + auto.
  - destruct (contains_false_inv ty Hc) as [Hh Hnot].
    split; split.
    + intros HT. exfalso. eauto.
    + intros (ty' & Hty' & [Hu | (name & Hname & Hin)]);
        rewrite Hty in Hty'; injection Hty' as <-; [congruence|].
      exfalso. exact (Hnot name Hname Hin).
    + intros _. right. eauto.
    + auto.
  - split; split.
    + intros _. eauto.
    + auto.
    + intros HV. exfalso. eauto.
    + intros [Hn | (ty' & Hty' & Hc)]; [congruence|].
      rewrite Hty in Hty'. injection Hty' as <-.
      apply contains_false_inv in Hc as [Hc _]. congruence.
  - split; split.
    + intros _. exists (VStr name). eauto.
    + auto.
    + intros HV. exfalso. eauto.
    + intros [Hn | (ty' & Hty' & Hc)]; [congruence|].
      rewrite Hty in Hty'. injection Hty' as <-.
      apply contains_registered in Hin. congruence.
Qed.

(** The first declared field of a class, when the mapping sets it, is
    loaded as its descriptor deserializes it. *)
Lemma load_first_field cname n f rest d o v :
  Schema_load (mkClass cname ((n, f) :: rest)) (VDict d) = Ok o ->
  PyDict.lookup n d = Some v ->
  deserialize_field f v = Ok (match getattr o n with Some v' => v' | None => v end) /\
  getattr o n <> None /\ obj_class o = cname.
Proof.
  unfold Schema_load. cbn [cls_fields cls_name load_fields].
  destruct (load_fields rest d) as [vals errs].
  intros Hload Hv. rewrite Hv in Hload.
  destruct (deserialize_field f v) as [v'|e].
  - destruct (errs ++ unknown_fields ((n, f) :: rest) d); [|discriminate Hload].
    injection Hload as <-. unfold getattr. cbn [obj_fields obj_class PyDict.lookup].
    rewrite String.eqb_refl. repeat split. discriminate.
  - discriminate Hload.
Qed.

(** Every registered class declares [type] first, as a string with
    options. *)
Lemma registered_class_type_first name cls :
  In (name, cls) registrations ->
  exists options default allow rest,
    cls = mkClass (cls_name cls) (("type", StringOptions options default allow) :: rest) /\
    type_options cls = options.
Proof.
  unfold registrations. simpl. intros H.
  repeat (destruct H as [[= <- <-] | H];
          [do 4 eexists; split; reflexivity |]).
  contradiction.
Qed.

(** A mapping loaded by a registered class keeps its [type], which is one
    the class admits. *)
Lemma registered_class_load_type name cls d o ty :
  In (name, cls) registrations ->
  Schema_load cls (VDict d) = Ok o ->
  PyDict.lookup "type" d = Some ty ->
  getattr o "type" = Some ty /\ obj_class o = cls_name cls /\
  (ty = VNone \/ exists t, ty = VStr t /\ In t (type_options cls)).
Proof.
  intros Hreg Hload Hty.
  destruct (registered_class_type_first name cls Hreg)
    as (options & default & allow & rest & Hcls & Hopts).
  rewrite Hopts. rewrite Hcls in Hload.
  destruct (load_first_field _ _ _ _ _ _ _ Hload Hty) as (Hdes & Hsome & Hname).
  destruct (getattr o "type") as [v'|]; [|congruence].
  cbn [deserialize_field] in Hdes.
  destruct ty as [| | | |t| | |]; try discriminate Hdes.
  - destruct allow; [|discriminate Hdes]. injection Hdes as <-. auto.
  - destruct (existsb (String.eqb t) options) eqn:E; [|discriminate Hdes].
    injection Hdes as <-.
    split; [reflexivity|]. split; [assumption|].
    right. exists t. split; [reflexivity|].
    apply existsb_exists in E as (x & Hx & Hs). apply String.eqb_eq in Hs. now subst x.
Qed.

(** What a successful [SchedulerDataclassField] went through. *)
Lemma SchedulerDataclassField_inv default description f :
  SchedulerDataclassField default description = Ok f ->
  exists d name cls,
    default = VDict d /\
    PyDict.lookup "type" d = Some (VStr name) /\
    In (name, cls) registrations /\
    Schema_load cls default = Ok (load_default f) /\
    dump_default f = Schema_dump cls d /\
    allow_none f = false /\
    description = scheduler.description f.
Proof.
  intros Hok. unfold SchedulerDataclassField, invalid_default, raise in Hok.
  destruct default; try discriminate Hok.
  destruct (PyDict.lookup "type" items) as [ty|] eqn:Hty; [|discriminate Hok].
  destruct (Registry.contains ty scheduler_config_registry) as [[|]|e] eqn:Hc;
    cbn [bind] in Hok; try discriminate Hok.
  destruct (contains_true_inv ty Hc) as [name [-> Hin]].
  destruct (registered_entry name Hin) as [Hlow [cls [Hcls Hreg]]].
  cbn [bind str_lower] in Hok. rewrite Hlow in Hok. unfold Registry.getitem in Hok.
  rewrite Hcls in Hok. cbn [bind py_Schema_load] in Hok.
  destruct (Schema_load cls (VDict items)) eqn:Hl;
    cbv [reraise_any bind py_Schema_dump raise] in Hok; [|discriminate Hok].
  injection Hok as <-.
  exists items, name, cls. cbn. auto 10.
Qed.

(** X14.  [SchedulerDataclassField] accepts the minimal default with a
    given [type] exactly for eight names: the registered names without the
    aliases [asynchyperband] and [medianstoppingrule] and without
    [hb_bohb], whose classes do not admit them as [type]. *)
Theorem X14_minimal_defaults_accepted :
  forall (name description : string),
    succeeds (SchedulerDataclassField (VDict [("type", VStr name)]) description) <->
    In name loadable_names.
Proof.
  intros name description. split.
  - intros [f Hf].
    destruct (SchedulerDataclassField_inv _ _ _ Hf)
      as (d & name' & cls & [= <-] & Hty & Hreg & Hload & _).
    cbn in Hty. injection Hty as <-.
    destruct (registered_class_load_type name cls [("type", VStr name)]
                (load_default f) (VStr name) Hreg Hload eq_refl)
      as (_ & _ & [Hnone | (t & [= <-] & Ht)]); [discriminate Hnone|].
    revert Ht. unfold registrations in Hreg. simpl in Hreg.
    repeat (destruct Hreg as [[= <- <-] | Hreg];
            [simpl; unfold loadable_names; simpl; intuition discriminate |]).
    contradiction.
  - unfold loadable_names. simpl. intros H.
    repeat (destruct H as [<- | H]; [eexists; reflexivity |]).
    contradiction.
Qed.



(** X16.  Loading a registered config class with a [type] value that is
    not one of the discriminators the class declares (another string, null,
    or a value of another kind) is a [ValidationError], as the docstring of
    [BaseSchedulerConfig.type] says of a mismatched [type]. *)
Theorem X16_mismatched_type_is_rejected :
  forall (name : string) (cls : config_class) (d : list (string * value)) (ty : value),
    In (name, cls) registrations ->
    PyDict.lookup "type" d = Some ty ->
    (forall t, ty = VStr t -> ~ In t (type_options cls)) ->
    raises (Schema_load cls (VDict d)) ValidationError.
Proof.
  intros name cls d ty Hreg Hty Hbad.
  destruct (Schema_load cls (VDict d)) as [o|e] eqn:Hload.
  - exfalso.
    destruct (registered_class_load_type name cls d o ty Hreg Hload Hty)
      as (_ & _ & [-> | (t & -> & Ht)]).
    + clear - Hreg Hload Hty.
      destruct (registered_class_type_first name cls Hreg)
        as (options & default & allow & rest & Hcls & _).
      rewrite Hcls in Hload.
      destruct (load_first_field _ _ _ _ _ _ _ Hload Hty) as (Hdes & _ & _).
      cbn [deserialize_field] in Hdes.
      assert (allow = false); [|subst allow; discriminate Hdes].
      unfold registrations in Hreg. simpl in Hreg.
      repeat (destruct Hreg as [[= <- <-] | Hreg];
              [injection Hcls as _ _ <-; reflexivity |]).
      contradiction.
    + exact (Hbad t eq_refl Ht).
  - apply Schema_load_raises_ValidationError in Hload.
    destruct e as [k msg]. simpl in Hload. subst k. eexists. reflexivity.
Qed.

Lemma X16_mismatched_type_is_rejected_witness :
  raises (Schema_load BOHBSchedulerConfig (VDict [("type", VStr "hb_bohb")]))
         ValidationError.
Proof.
  apply (X16_mismatched_type_is_rejected "hb_bohb" BOHBSchedulerConfig
           [("type", VStr "hb_bohb")] (VStr "hb_bohb")).
  - unfold registrations. simpl. tauto.
  - reflexivity.
  - intros t [= <-]. simpl. intros [H|[]]. discriminate H.
Defined.


End SchedulerFieldFurther.

(** ** The JSON schema of the scheduler field *)

Section SchedulerJsonSchema.
Import schema_utils scheduler.
Variable unload_jsonschema_from_marshmallow_class : pyobj -> result (list (string * value)).
Variable remove_duplicate_fields : value -> value.
Variable create_cond : value -> value -> value.




End SchedulerJsonSchema.


(** ** The search-algorithm field, further *)

Section SearchAlgorithmFurther.
Import schema_utils scheduler search_algorithm.



(** X21.  A config object returned by the search-algorithm deserializer is
    a [BaseSearchAlgorithmConfig] whose [type] is the registered name the
    mapping gives, or ["hyperopt"] when the mapping has no [type] key. *)
Theorem X21_search_algorithm_loaded_type :
  forall (keys : list string) (d : list (string * value)) (o : config_obj),
    SearchAlgorithmMarshmallowField_deserialize keys (VDict d) = Ok o ->
    obj_class o = "BaseSearchAlgorithmConfig" /\
    ((PyDict.lookup "type" d = None /\ getattr o "type" = Some (VStr "hyperopt")) \/
     exists t, PyDict.lookup "type" d = Some (VStr t) /\ In t keys /\
               getattr o "type" = Some (VStr t)).
Proof.
  intros keys d o. unfold SearchAlgorithmMarshmallowField_deserialize.
  cbn [isinstance_dict].
  destruct (Schema_load (BaseSearchAlgorithmConfig keys) (VDict d)) as [o'|e] eqn:Hl;
    cbn [reraise_as_validation].
  2:{ destruct (exn_kind_of e); discriminate. }
  intros [= ->].
  destruct (PyDict.lookup "type" d) as [ty|] eqn:Hty.
  - destruct (load_first_field _ _ _ _ _ _ _ Hl Hty) as (Hdes & Hsome & Hcls).
    split; [assumption|]. right.
    destruct (getattr o "type") as [v'|]; [|congruence].
    cbn [deserialize_field] in Hdes.
    destruct ty as [| | | |t| | |]; try discriminate Hdes.
    destruct (existsb (String.eqb t) keys) eqn:E; [|discriminate Hdes].
    injection Hdes as <-. exists t. repeat split.
    apply existsb_exists in E as (x & Hx & Hs). apply String.eqb_eq in Hs. now subst x.
  - unfold Schema_load, BaseSearchAlgorithmConfig in Hl.
    cbn [cls_fields cls_name load_fields] in Hl. rewrite Hty in Hl.
    cbn [app field_default] in Hl.
    destruct (unknown_fields _ d); [|discriminate Hl].
    injection Hl as <-. split; [reflexivity|]. left. split; reflexivity.
Qed.

Lemma X21_search_algorithm_loaded_type_witness :
  obj_class (mkObj "BaseSearchAlgorithmConfig" [("type", VStr "variant_generator")]) =
    "BaseSearchAlgorithmConfig".
Proof.
  apply (X21_search_algorithm_loaded_type ["hyperopt"; "variant_generator"]
           [("type", VStr "variant_generator")]
           (mkObj "BaseSearchAlgorithmConfig" [("type", VStr "variant_generator")])).
  reflexivity.
Defined.

(** X22.  [SearchAlgorithmDataclassField] refuses a default that is not a
    mapping with a [ValidationError], and accepts the minimal default with a
    given [type] exactly when that name is a registered search algorithm;
    so its own default argument needs ["variant_generator"] to be
    registered. *)
Theorem X22_search_algorithm_default :
  forall (keys : list string) (description : string),
    (forall default, isinstance_dict default = false ->
       raises (SearchAlgorithmDataclassField keys description default) ValidationError) /\
    (forall t,
       succeeds (SearchAlgorithmDataclassField keys description
                   (VDict [("type", VStr t)])) <-> In t keys).
Proof.
  intros keys description. split.
  - intros default Hd. destruct default; try discriminate Hd; eexists; reflexivity.
  - intros t. unfold SearchAlgorithmDataclassField, Schema_load, BaseSearchAlgorithmConfig.
    cbn [cls_fields cls_name load_fields PyDict.lookup String.eqb Ascii.eqb Bool.eqb
         deserialize_field].
    destruct (existsb (String.eqb t) keys) eqn:E.
    + split; [intros _ | intros _; eexists; reflexivity].
      apply existsb_exists in E as (x & Hx & Hs). apply String.eqb_eq in Hs. now subst x.
    + split.
      * intros [f Hf]. discriminate Hf.
      * intros Hin. exfalso.
        assert (existsb (String.eqb t) keys = true); [|congruence].
        apply existsb_exists. exists t. split; [assumption | apply String.eqb_refl].
Qed.

Lemma X22_search_algorithm_default_witness :
  raises (SearchAlgorithmDataclassField ["hyperopt"; "variant_generator"]
            "" (VStr "variant_generator"))
         ValidationError.
Proof.
  apply (proj1 (X22_search_algorithm_default ["hyperopt"; "variant_generator"] "")).
  reflexivity.
Defined.

(** X23.  The JSON schema of the search-algorithm field has the title
    "scheduler" and the description given to the field builder, whatever
    the unloaded schema of the base class says under those keys, and keeps
    every other entry of that schema. *)
Theorem X23_search_algorithm_jsonschema :
  forall (keys : list string)
         (unload_jsonschema_from_marshmallow_class : config_class -> list (string * value))
         (description : string),
    exists items,
      SearchAlgorithmMarshmallowField_jsonschema_type_mapping keys
        unload_jsonschema_from_marshmallow_class description = VDict items /\
      PyDict.lookup "title" items = Some (VStr "scheduler") /\
      PyDict.lookup "description" items = Some (VStr description) /\
      forall key, key <> "title" -> key <> "description" ->
        PyDict.lookup key items =
        PyDict.lookup key
          (unload_jsonschema_from_marshmallow_class (BaseSearchAlgorithmConfig keys)).
Proof.
  intros keys unload description.
  eexists. split; [reflexivity|]. repeat split.
  - rewrite lookup_set_other by discriminate. apply lookup_set_same.
  - apply lookup_set_same.
  - intros key Ht Hd. now rewrite !lookup_set_other.
Qed.
End SearchAlgorithmFurther.
